(** * Transcript event-stream analysis: a shallow embedding

    The development follows three scripts of the repository:

    - [src/analysis/extract_micro_examples.py]: the category table, the
      event extractor and the three sliding-window pattern detectors;
    - [src/analysis/analyze_verification_patterns.py]: the verification
      counters, the derived rates and the two composite scores;
    - [src/analysis/compute_weekly_delegation.py]: the delegation score.

    Python values are modelled as follows.  [int] is [Z]; [str] is
    [string]; a [list] indexed by position is a [list] read with stdpp's
    lookup; the [dict] of a tool's arguments is a [gmap string string]; a
    [dict] that is iterated in insertion order is an association list.
    [float] arithmetic is written once over an interface [PyNum] and read
    twice: over [Q] (exact rational arithmetic) and over the kernel's
    binary64 numbers (what CPython computes).  A loop that an exception
    can leave is a fold with two ways to end, [Returns] and [Raises]. *)

From Stdlib Require Import ZArith QArith Lia Lqa Sorting.Sorted.
From Stdlib Require Import Floats.PrimFloat Floats.SpecFloat Floats.FloatOps.
From stdpp Require Import list strings gmap.

Local Open Scope string_scope.
Local Open Scope Z_scope.
Local Open Scope list_scope.

(** ** The category table ([extract_micro_examples.py], lines 28-41) *)

Module Category.

(** [TOOL_CATEGORIES]: a dict literal, iterated in insertion order. *)
Definition TOOL_CATEGORIES : list (string * list string) :=
  [ ("exploration", ["Read"; "Glob"; "Grep"; "WebSearch"; "WebFetch"; "LSP"]);
    ("modification", ["Write"; "Edit"; "MultiEdit"; "NotebookEdit"]);
    ("execution", ["Bash"; "Task"; "TaskOutput"; "KillShell"]);
    ("planning", ["TodoWrite"; "EnterPlanMode"; "ExitPlanMode"]);
    ("interaction", ["AskUserQuestion"]) ].

(** [tool_name in tools] on a list of strings. *)
Definition str_in (s : string) (l : list string) : bool :=
  existsb (String.eqb s) l.

(** [get_tool_category]: the first category whose list holds the name,
    ["other"] when the loop falls through. *)
Definition get_tool_category (tool_name : string) : string :=
  match List.find (fun ct => str_in tool_name ct.2) TOOL_CATEGORIES with
  | Some ct => ct.1
  | None => "other"
  end.

(** The second table of the repository, local to
    [advanced_analysis.py], [analyze_tool_sequencing] (lines 215-222).  It
    is the only place where a category ["advanced"] is given members; it is
    summed over and never consulted by [get_tool_category]. *)
Definition tool_categories_advanced_analysis : list (string * list string) :=
  [ ("exploration", ["Read"; "Grep"; "Glob"; "WebSearch"; "WebFetch"]);
    ("modification", ["Write"; "Edit"; "MultiEdit"; "NotebookEdit"]);
    ("execution", ["Bash"; "Task"; "BashOutput"; "TaskOutput"]);
    ("planning", ["TodoWrite"; "EnterPlanMode"; "ExitPlanMode"]);
    ("interaction", ["AskUserQuestion"; "KillShell"]);
    ("advanced", ["AgentOutputTool"; "mcp__playwright__browser_navigate";
                  "mcp__playwright__browser_press_key"]) ].

(** The six names [get_tool_category] can return. *)
Definition categories : list string :=
  ["exploration"; "modification"; "execution"; "planning"; "interaction"; "other"].

End Category.

(** ** Transcript records

    One parsed line of a transcript is any JSON value; the scripts expect
    an object and read it with [dict.get] and a default.  A field below
    holds the value that [get] returns, so an absent key and its default
    are the same value.  Where the scripts call [.get] on what they found
    inside the object, the model keeps the case that the value is not a
    dict, on which the call raises [AttributeError]; the other fields are
    taken to hold the kind of value the scripts use them as. *)

Module Transcript.

(** A content item that is a dict, discriminated by [item.get("type")]. *)
Inductive Item : Type :=
| tool_use (name : string) (input : option (gmap string string))
    (* [name]: [item.get("name", "")]; [input]: [item.get("input", {})],
       [None] when it is not a dict *)
| tool_result (is_error : bool)
    (* [item.get("is_error", False)] *)
| text_item (text : string)
    (* [item.get("text", "")] *)
| other_item.

(** An element of a content list: a dict, a plain string, or any other
    value. *)
Inductive Element : Type :=
| dict_item (item : Item)
| str_element (s : string)
| other_element.

Definition is_dict (el : Element) : bool :=
  match el with dict_item _ => true | _ => false end.

(** [message.get("content", [])]: a list, a plain string, or something
    else. *)
Inductive Content : Type :=
| content_list (items : list Element)
| content_str (s : string)
| content_other.

Record Message : Type := {
  role : option string;        (* [message.get("role")] *)
  msg_model : option string;   (* [message.get("model")] *)
  content : Content;
}.

(** [entry.get("message", {})]: a dict, or a value of another kind. *)
Inductive MessageField : Type :=
| message_dict (m : Message)
| message_other.

Record Entry : Type := {
  entry_type : option string;  (* [entry.get("type")] *)
  timestamp : string;          (* [entry.get("timestamp", "")] *)
  message : MessageField;      (* [entry.get("message", {})] *)
}.

(** [entry.get("message", {})] when the key is absent. *)
Definition empty_message : Message :=
  {| role := None; msg_model := None; content := content_list [] |}.

(** What [json.loads] returns on a line it accepts: an object, or a
    value of another kind (a number, a string, an array, [null], ...). *)
Inductive Value : Type :=
| object (entry : Entry)
| non_object.

(** One step of [for line in f]: the next line, or an exception of the
    text decoder ([UnicodeDecodeError]). *)
Inductive Read : Type :=
| read_line (line : string)
| read_error.

(** A transcript file: [None] when [open] raises, otherwise what the
    iteration over its lines does, step by step. *)
Definition File : Type := option (list Read).

(** A file that is read without an error. *)
Definition file_of_lines (lines : list string) : File :=
  Some (map read_line lines).

End Transcript.
Export Transcript.

(** ** Loops that an exception can leave *)

(** How a loop ends, with the state it has reached: by running out of
    elements, or by an exception raised in its body. *)
Inductive Outcome (A : Type) : Type :=
| Returns (a : A)
| Raises (a : A).
Arguments Returns {A} a.
Arguments Raises {A} a.

Definition state_of {A} (o : Outcome A) : A :=
  match o with Returns a => a | Raises a => a end.

Definition returned {A} (o : Outcome A) : option A :=
  match o with Returns a => Some a | Raises _ => None end.

(** [for x in l: body], where [body] may raise. *)
Fixpoint for_each {A B} (body : A -> B -> Outcome A) (st : A) (l : list B)
    : Outcome A :=
  match l with
  | [] => Returns st
  | x :: l' =>
      match body st x with
      | Returns st' => for_each body st' l'
      | Raises st' => Raises st'
      end
  end.

(** ** Library functions

    What the scripts call from the Python library and do not define. *)

(** What a call of [json.loads] does. *)
Inductive Loaded : Type :=
| loads (v : Value)        (* returns a value *)
| JSONDecodeError          (* raises [json.JSONDecodeError] *)
| other_exception.         (* raises anything else: [RecursionError] on a
                              deeply nested line, [ValueError] on an
                              integer literal that is too long *)

Class PyLib : Type := {
  (** [str.strip] *)
  str_strip : string -> string;
  (** [json.loads] *)
  json_loads : string -> Loaded;
  (** [re.search(pattern, s)] as a truth value *)
  re_search : string -> string -> bool;
  (** [str.lower] *)
  str_lower : string -> string;
  (** [re.sub(pattern, repl, s)] *)
  re_sub : string -> string -> string -> string;
  (** [Path(p).name] *)
  path_name : string -> string;
}.

(** Truth value of a string ([if line:]). *)
Definition str_truthy (s : string) : bool :=
  match s with EmptyString => false | _ => true end.

(** Truth value of an optional string ([if file_path_val:]). *)
Definition opt_truthy (o : option string) : bool :=
  match o with Some s => str_truthy s | None => false end.

(** [a or b] on optional strings. *)
Definition py_or (a b : option string) : option string :=
  if opt_truthy a then a else b.

(** [tool_input.get("file_path") or tool_input.get("path")] under
    [isinstance(tool_input, dict)], [None] otherwise: the same three lines
    in both scripts. *)
Definition file_path_val_of (tool_input : option (gmap string string)) : option string :=
  match tool_input with
  | Some d => py_or (d !! "file_path") (d !! "path")
  | None => None
  end.

(** [d.get(k, "")] on a dict of strings. *)
Definition get_str (d : gmap string string) (k : string) : string :=
  default "" (d !! k).

(** A byte of the form [10xxxxxx], which continues a character in
    UTF-8. *)
Definition is_continuation (c : Ascii.ascii) : bool :=
  let n := Ascii.nat_of_ascii c in (128 <=? n)%nat && (n <? 192)%nat.

(** [s[:n]]: the first [n] characters.  A [string] here is the UTF-8
    encoding of the Python string, so a character is a byte together with
    the continuation bytes that follow it. *)
Fixpoint str_take (n : nat) (s : string) : string :=
  match s with
  | EmptyString => EmptyString
  | String c s' =>
      if is_continuation c then String c (str_take n s')
      else match n with
           | O => EmptyString
           | S n' => String c (str_take n' s')
           end
  end.

(** ** The record reader ([parse_jsonl], the same text in both scripts) *)

Section Reader.
Context `{PyLib}.

(** The generator, as the list of the values it yields.  A line that is
    blank after [strip] and a line on which [json.loads] raises
    [JSONDecodeError] yield nothing and the loop goes on ([continue]).  Any
    other exception, from the decoder of the file or from [json.loads],
    leaves the loop and is swallowed by the outer [except Exception: pass]:
    the generator ends there. *)
Fixpoint read_lines (reads : list Read) : list Value :=
  match reads with
  | [] => []
  | read_error :: _ => []
  | read_line line :: reads' =>
      let line := str_strip line in
      if str_truthy line then
        match json_loads line with
        | loads v => v :: read_lines reads'
        | JSONDecodeError => read_lines reads'
        | other_exception => []
        end
      else read_lines reads'
  end.

(** The line yields no record and the loop goes on: it is blank after
    [strip], or [json.loads] raises [JSONDecodeError] on it. *)
Definition skipped (line : string) : Prop :=
  str_truthy (str_strip line) = false
  \/ json_loads (str_strip line) = JSONDecodeError.


(** A file that cannot be opened yields nothing (the same outer
    handler). *)
Definition parse_jsonl (f : File) : list Value :=
  match f with
  | Some reads => read_lines reads
  | None => []
  end.

End Reader.

(** ** The event extractor ([extract_micro_examples.py], lines 44-164) *)

Module Extractor.
Import Category.

Record ToolEvent : Type := {
  tool_name : string;
  category : string;
  ev_timestamp : string;
  input_preview : string;
  success : bool;
  model : option string;
  file_path : option string;
}.

(** [event.success = b], the one field assignment of the script. *)
Definition set_success (b : bool) (e : ToolEvent) : ToolEvent :=
  {| tool_name := tool_name e; category := category e;
     ev_timestamp := ev_timestamp e; input_preview := input_preview e;
     success := b; model := model e; file_path := file_path e |}.

Section WithLib.
Context `{PyLib}.

(** [_create_input_preview] *)
Definition _create_input_preview (tool_name : string)
    (tool_input : option (gmap string string)) : string :=
  match tool_input with
  | None => ""
  | Some d =>
      if String.eqb tool_name "Bash" then
        let cmd := get_str d "command" in
        let cmd := re_sub "/home/[^/]+" "/home/user" cmd in
        str_take 100 cmd
      else if String.eqb tool_name "Read" then
        "Read: " +:+ path_name (get_str d "file_path")
      else if str_in tool_name ["Edit"; "Write"] then
        tool_name +:+ ": " +:+ path_name (get_str d "file_path")
      else if String.eqb tool_name "Grep" then
        "Grep: " +:+ str_take 50 (get_str d "pattern")
      else if String.eqb tool_name "Glob" then
        "Glob: " +:+ get_str d "pattern"
      else ""
  end.

(** The body of [for item in content] in [extract_tool_events]: one
    content item against the event list built so far. *)
Definition extract_item (timestamp : string) (current_model : option string)
    (events : list ToolEvent) (item : Item) : list ToolEvent :=
  match item with
  | tool_use tool_name tool_input =>
      let file_path_val := file_path_val_of tool_input in
      let input_preview := _create_input_preview tool_name tool_input in
      events ++ [ {| tool_name := tool_name;
                     category := get_tool_category tool_name;
                     ev_timestamp := timestamp;
                     input_preview := input_preview;
                     success := true;
                     model := current_model;
                     file_path := file_path_val |} ]
  | tool_result is_error =>
      (* [if events: events[-1].success = not is_error] *)
      match events with
      | [] => events
      | _ :: _ => alter (set_success (negb is_error)) (pred (length events)) events
      end
  | _ => events
  end.

(** One turn of [for item in content]: [item.get] raises
    [AttributeError] on an element that is not a dict. *)
Definition extract_element (timestamp : string) (current_model : option string)
    (events : list ToolEvent) (el : Element) : Outcome (list ToolEvent) :=
  match el with
  | dict_item item => Returns (extract_item timestamp current_model events item)
  | _ => Raises events
  end.

(** The body of [for entry in self.parse_jsonl(file_path)]: the state is
    the pair of [current_model] and [events].  [entry.get] raises on a
    value that is not an object, [message.get] on a message that is not a
    dict. *)
Definition extract_entry (st : option string * list ToolEvent) (v : Value)
    : Outcome (option string * list ToolEvent) :=
  let '(current_model, events) := st in
  match v with
  | non_object => Raises st
  | object entry =>
      if bool_decide (entry_type entry = Some "summary") then Returns st
      else
        match message entry with
        | message_other => Raises st
        | message_dict message =>
            let current_model :=
              if opt_truthy (msg_model message) then msg_model message
              else current_model in
            match content message with
            | content_list items =>
                match for_each (extract_element (timestamp entry) current_model)
                        events items with
                | Returns events => Returns (current_model, events)
                | Raises events => Raises (current_model, events)
                end
            | _ => Returns (current_model, events)
            end
        end
  end.

(** The loop of [extract_tool_events], with the way it ends. *)
Definition extract_tool_events_loop (f : File)
    : Outcome (option string * list ToolEvent) :=
  for_each extract_entry (None, []) (parse_jsonl f).

(** [extract_tool_events]: the events when the call returns, [None] when
    it raises. *)
Definition extract_tool_events (f : File) : option (list ToolEvent) :=
  match extract_tool_events_loop f with
  | Returns st => Some st.2
  | Raises _ => None
  end.

End WithLib.
End Extractor.

(** ** The pattern detectors ([extract_micro_examples.py], lines 166-230) *)

Module Detectors.
Import Extractor.

(** [events[j].category == c], for an index inside the list. *)
Definition category_at (events : list ToolEvent) (c : string) (j : nat) : bool :=
  match events !! j with
  | Some e => String.eqb (category e) c
  | None => false
  end.

(** [events[j].tool_name == "Bash"] *)
Definition bash_at (events : list ToolEvent) (j : nat) : bool :=
  match events !! j with
  | Some e => String.eqb (tool_name e) "Bash"
  | None => false
  end.

(** [for j in range(lo, min(lo + 4, len(events))): if p(j): ...; break]:
    the first index of the range at which the test holds. *)
Definition first_in_window (p : nat -> bool) (n lo : nat) : option nat :=
  List.find p (seq lo (Nat.min (lo + 4) n - lo)).

(** [find_execute_explore_modify_cycles].  The [while] loop of the script
    is run with a step budget; [i] grows at every iteration, so
    [len(events)] steps are enough (see [eem_loop_fuel]). *)
Fixpoint eem_loop (fuel : nat) (events : list ToolEvent) (i : nat)
    : list (nat * nat) :=
  match fuel with
  | O => []
  | S fuel =>
      if bool_decide (i + 2 < length events)%nat then
        if category_at events "execution" i then
          match first_in_window (category_at events "exploration")
                  (length events) (i + 1) with
          | Some j =>
              match first_in_window (category_at events "modification")
                      (length events) (j + 1) with
              | Some k => (i, k + 1)%nat :: eem_loop fuel events (k + 1)
              | None => eem_loop fuel events (i + 1)
              end
          | None => eem_loop fuel events (i + 1)
          end
        else eem_loop fuel events (i + 1)
      else []
  end.

Definition find_execute_explore_modify_cycles (events : list ToolEvent)
    : list (nat * nat) :=
  eem_loop (length events) events 0.

(** [file_edits[path].append(i)] on a [defaultdict(list)], kept in
    insertion order. *)
Fixpoint dd_append (path : string) (i : nat) (d : list (string * list nat))
    : list (string * list nat) :=
  match d with
  | [] => [(path, [i])]
  | (p, l) :: d' =>
      if String.eqb p path then (p, l ++ [i]) :: d'
      else (p, l) :: dd_append path i d'
  end.

(** The first loop of [find_correction_sequences]. *)
Definition file_edits (events : list ToolEvent) : list (string * list nat) :=
  foldl (fun d ie =>
           let '(i, event) := ie in
           if String.eqb (category event) "modification"
              && opt_truthy (file_path event)
           then dd_append (default "" (file_path event)) i d
           else d)
        [] (imap (fun i e => (i, e)) events).

(** [for j in range(len(indices) - 1)]: the adjacent pairs at distance at
    most 10.  On a list shorter than 2 there is none, which is the guard
    [len(indices) >= 2]. *)
Fixpoint close_pairs (indices : list nat) : list (nat * nat) :=
  match indices with
  | a :: (b :: _) as rest =>
      if bool_decide (b - a <= 10)%nat then (a, b + 1)%nat :: close_pairs rest
      else close_pairs rest
  | _ => []
  end.

Definition find_correction_sequences (events : list ToolEvent)
    : list (nat * nat) :=
  flat_map (fun pl => close_pairs pl.2) (file_edits events).

(** One iteration of [for i, event in enumerate(events)] in
    [find_bash_retry_sequences]. *)
Definition bash_retry_at (events : list ToolEvent) (i : nat) : option (nat * nat) :=
  match events !! i with
  | Some event =>
      if String.eqb (tool_name event) "Bash" && negb (success event) then
        match first_in_window (bash_at events) (length events) (i + 1) with
        | Some j => Some (i, j + 1)%nat
        | None => None
        end
      else None
  | None => None
  end.

Definition find_bash_retry_sequences (events : list ToolEvent)
    : list (nat * nat) :=
  omap (bash_retry_at events) (seq 0 (length events)).

(** The scan of [find_execute_explore_modify_cycles] resumed at index
    [i], with the steps that are left. *)
Definition eem_from (events : list ToolEvent) (i : nat) : list (nat * nat) :=
  eem_loop (length events - i) events i.

(** *** Vocabulary for the statements about the detectors *)

(** [j] is the first index of the window [lo, min (lo + 4) n) at which
    [p] holds. *)
Definition first_hit (p : nat -> bool) (n lo j : nat) : Prop :=
  (lo <= j < Nat.min (lo + 4) n)%nat /\ p j = true
  /\ forall j', (lo <= j' < j)%nat -> p j' = false.

(** [p] holds nowhere in the window. *)
Definition no_hit (p : nat -> bool) (n lo : nat) : Prop :=
  forall j, (lo <= j < Nat.min (lo + 4) n)%nat -> p j = false.

(** Two matches, as half-open intervals, share no index. *)
Definition disjoint (m1 m2 : nat * nat) : Prop :=
  (m1.2 <= m2.1)%nat \/ (m2.2 <= m1.1)%nat.

(** No two matches of a list overlap. *)
Definition pairwise_disjoint (l : list (nat * nat)) : Prop :=
  forall a b m1 m2, a <> b -> l !! a = Some m1 -> l !! b = Some m2 -> disjoint m1 m2.

(** The matches lie in this order from [lo] on, each one non-empty and
    starting at or after the end of the one before. *)
Fixpoint chain (lo : nat) (l : list (nat * nat)) : Prop :=
  match l with
  | [] => True
  | m :: l' => (lo <= m.1)%nat /\ (m.1 < m.2)%nat /\ chain m.2 l'
  end.

(** An event of a given tool, for examples: the category is the table's. *)
Definition event_of (name : string) (ok : bool) (path : option string) : ToolEvent :=
  {| tool_name := name; category := Category.get_tool_category name;
     ev_timestamp := ""; input_preview := ""; success := ok; model := None;
     file_path := path |}.

Definition two_cycles : list ToolEvent :=
  [ event_of "Bash" true None; event_of "Read" true None;
    event_of "Edit" true (Some "a.py");
    event_of "Bash" true None; event_of "Grep" true None;
    event_of "Write" true (Some "b.py"); event_of "Read" true None ].

Definition failed_twice : list ToolEvent :=
  [ event_of "Bash" false None; event_of "Bash" false None;
    event_of "Bash" true None ].

Definition edited_thrice : list ToolEvent :=
  [ event_of "Edit" true (Some "a.py"); event_of "Edit" true (Some "a.py");
    event_of "Edit" true (Some "a.py") ].

End Detectors.

(** ** Numbers

    The arithmetic of the scripts that leaves the integers: true division
    of two [int]s, and sums, products and quotients of [float]s, with
    decimal literals.  It is written against this interface. *)

Class PyNum (F : Type) : Type := {
  (** an [int] used where a [float] is expected *)
  of_int : Z -> F;
  (** [a / b] on two [int]s *)
  int_div : Z -> Z -> F;
  nadd : F -> F -> F;
  nsub : F -> F -> F;
  nmul : F -> F -> F;
  ndiv : F -> F -> F;
}.

(** The decimal literal [n / 10^k] written in the source ([0.3] is
    [lit 3 10]): the number nearest to the quotient. *)
Definition lit {F} `{PyNum F} (n d : Z) : F := int_div n d.

(** Exact reading: the rationals. *)
#[export] Instance PyNum_Q : PyNum Q := {
  of_int := inject_Z;
  int_div := fun a b => Qdiv (inject_Z a) (inject_Z b);
  nadd := Qplus;
  nsub := Qminus;
  nmul := Qmult;
  ndiv := Qdiv;
}.

(** Machine reading: IEEE 754 binary64, CPython's [float].  An [int] of
    any size is an exact number with exponent 0; [of_int] rounds it to the
    nearest binary64 number and [int_div] rounds the exact quotient of the
    two integers, once, as CPython does.  Where CPython raises instead
    ([OverflowError] beyond the binary64 range, [ZeroDivisionError]) the
    value here is an infinity or a NaN; the scripts divide by a count only
    after testing that it is positive, or not zero. *)
Definition sf_of_int (z : Z) : spec_float :=
  match z with
  | Z0 => S754_zero false
  | Zpos p => S754_finite false p 0
  | Zneg p => S754_finite true p 0
  end.

Definition float_of_int (z : Z) : float :=
  SF2Prim (binary_normalize prec emax z 0 false).

Definition float_int_div (a b : Z) : float :=
  SF2Prim (SFdiv prec emax (sf_of_int a) (sf_of_int b)).

#[export] Instance PyNum_float : PyNum float := {
  of_int := float_of_int;
  int_div := float_int_div;
  nadd := PrimFloat.add;
  nsub := PrimFloat.sub;
  nmul := PrimFloat.mul;
  ndiv := PrimFloat.div;
}.

(** ** The verification analyzer ([analyze_verification_patterns.py]) *)

Module Verification.

(** [REJECTION_KEYWORDS] *)
Definition REJECTION_KEYWORDS : list string :=
  [ "\bno\b"; "\bwrong\b"; "\bincorrect\b"; "\btry again\b"; "\bfix\b";
    "\bundo\b"; "\brevert\b"; "\bnot what i\b"; "\bthat's not\b";
    "\bactually\b"; "\binstead\b"; "\bdon't\b"; "\bstop\b"; "\bcancel\b";
    "\berror\b"; "\bfailed\b"; "\bbroke\b" ].

(** [VerificationMetrics]: the seven counters.  The per-session dict
    [session_metrics] of [analyze_session] holds the same seven counters
    under the keys [tool_uses], [tool_errors], [bash_failures],
    [bash_retries], [consecutive_edits], [user_rejections] and
    [user_messages]; it is modelled by the same record, field for field. *)
Record VerificationMetrics : Type := {
  total_tool_uses : Z;
  tool_errors : Z;
  bash_failures : Z;
  bash_retries : Z;
  consecutive_edits_same_file : Z;
  user_rejection_messages : Z;
  total_user_messages : Z;
}.

Definition zero_metrics : VerificationMetrics :=
  {| total_tool_uses := 0; tool_errors := 0; bash_failures := 0;
     bash_retries := 0; consecutive_edits_same_file := 0;
     user_rejection_messages := 0; total_user_messages := 0 |}.

(** The seven [+= 1]. *)
Definition incr_total_tool_uses (m : VerificationMetrics) : VerificationMetrics :=
  {| total_tool_uses := total_tool_uses m + 1; tool_errors := tool_errors m;
     bash_failures := bash_failures m; bash_retries := bash_retries m;
     consecutive_edits_same_file := consecutive_edits_same_file m;
     user_rejection_messages := user_rejection_messages m;
     total_user_messages := total_user_messages m |}.

Definition incr_tool_errors (m : VerificationMetrics) : VerificationMetrics :=
  {| total_tool_uses := total_tool_uses m; tool_errors := tool_errors m + 1;
     bash_failures := bash_failures m; bash_retries := bash_retries m;
     consecutive_edits_same_file := consecutive_edits_same_file m;
     user_rejection_messages := user_rejection_messages m;
     total_user_messages := total_user_messages m |}.

Definition incr_bash_failures (m : VerificationMetrics) : VerificationMetrics :=
  {| total_tool_uses := total_tool_uses m; tool_errors := tool_errors m;
     bash_failures := bash_failures m + 1; bash_retries := bash_retries m;
     consecutive_edits_same_file := consecutive_edits_same_file m;
     user_rejection_messages := user_rejection_messages m;
     total_user_messages := total_user_messages m |}.

Definition incr_bash_retries (m : VerificationMetrics) : VerificationMetrics :=
  {| total_tool_uses := total_tool_uses m; tool_errors := tool_errors m;
     bash_failures := bash_failures m; bash_retries := bash_retries m + 1;
     consecutive_edits_same_file := consecutive_edits_same_file m;
     user_rejection_messages := user_rejection_messages m;
     total_user_messages := total_user_messages m |}.

Definition incr_consecutive_edits (m : VerificationMetrics) : VerificationMetrics :=
  {| total_tool_uses := total_tool_uses m; tool_errors := tool_errors m;
     bash_failures := bash_failures m; bash_retries := bash_retries m;
     consecutive_edits_same_file := consecutive_edits_same_file m + 1;
     user_rejection_messages := user_rejection_messages m;
     total_user_messages := total_user_messages m |}.

Definition incr_user_rejections (m : VerificationMetrics) : VerificationMetrics :=
  {| total_tool_uses := total_tool_uses m; tool_errors := tool_errors m;
     bash_failures := bash_failures m; bash_retries := bash_retries m;
     consecutive_edits_same_file := consecutive_edits_same_file m;
     user_rejection_messages := user_rejection_messages m + 1;
     total_user_messages := total_user_messages m |}.

Definition incr_user_messages (m : VerificationMetrics) : VerificationMetrics :=
  {| total_tool_uses := total_tool_uses m; tool_errors := tool_errors m;
     bash_failures := bash_failures m; bash_retries := bash_retries m;
     consecutive_edits_same_file := consecutive_edits_same_file m;
     user_rejection_messages := user_rejection_messages m;
     total_user_messages := total_user_messages m + 1 |}.

(** An element of [recent_tools]:
    [(tool_name, file_path, success, index)]. *)
Record RecentTool : Type := {
  rt_tool : string;
  rt_path : option string;
  rt_success : bool;
  rt_index : nat;
}.

(** What [analyze_session] reads and writes: the analyzer's own counters
    [self.metrics], which outlive the session, and the three locals of the
    call.  The lists [self.examples] take no part in any counter and are
    left out. *)
Record State : Type := {
  self_metrics : VerificationMetrics;
  session_metrics : VerificationMetrics;
  recent_tools : list RecentTool;
  recent_bash_failed : bool;
}.

(** [session_metrics[k] += 1; self.metrics.k += 1]: every counter of the
    script is bumped in both places at once. *)
Definition bump (f : VerificationMetrics -> VerificationMetrics) (st : State) : State :=
  {| self_metrics := f (self_metrics st);
     session_metrics := f (session_metrics st);
     recent_tools := recent_tools st;
     recent_bash_failed := recent_bash_failed st |}.

Definition set_recent_bash_failed (b : bool) (st : State) : State :=
  {| self_metrics := self_metrics st;
     session_metrics := session_metrics st;
     recent_tools := recent_tools st;
     recent_bash_failed := b |}.

Definition push_recent_tool (t : RecentTool) (st : State) : State :=
  {| self_metrics := self_metrics st;
     session_metrics := session_metrics st;
     recent_tools := recent_tools st ++ [t];
     recent_bash_failed := recent_bash_failed st |}.

(** [tool_name in ["Edit", "Write", "MultiEdit"]] *)
Definition is_edit_tool (tool_name : string) : bool :=
  Category.str_in tool_name ["Edit"; "Write"; "MultiEdit"].

(** [l[-5:]] *)
Definition last5 {A} (l : list A) : list A := drop (length l - 5) l.

(** The test of line 171 on one earlier tool use. *)
Definition same_file_edit (file_path_val : option string) (prev : RecentTool) : bool :=
  is_edit_tool (rt_tool prev) && bool_decide (rt_path prev = file_path_val).

(** [for prev in reversed(recent_tools[-5:]): if ...: count; break],
    over the reversed slice. *)
Fixpoint scan_recent (file_path_val : option string) (prevs : list RecentTool)
    (st : State) : State :=
  match prevs with
  | [] => st
  | prev :: prevs =>
      if same_file_edit file_path_val prev
      then bump incr_consecutive_edits st
      else scan_recent file_path_val prevs st
  end.

(** The [tool_use] branch (lines 151-183). *)
Definition on_tool_use (tool_name : string)
    (tool_input : option (gmap string string)) (st : State) : State :=
  let st := bump incr_total_tool_uses st in
  let file_path_val := file_path_val_of tool_input in
  let st :=
    if String.eqb tool_name "Bash" && recent_bash_failed st
    then set_recent_bash_failed false (bump incr_bash_retries st)
    else st in
  let st :=
    if is_edit_tool tool_name && opt_truthy file_path_val
    then scan_recent file_path_val (reverse (last5 (recent_tools st))) st
    else st in
  push_recent_tool
    {| rt_tool := tool_name; rt_path := file_path_val; rt_success := true;
       rt_index := length (recent_tools st) |} st.

(** [recent_tools and recent_tools[-1][0] == "Bash"] *)
Definition last_is_bash (l : list RecentTool) : bool :=
  match last l with
  | Some t => String.eqb (rt_tool t) "Bash"
  | None => false
  end.

(** The [tool_result] branch (lines 185-195). *)
Definition on_tool_result (is_error : bool) (st : State) : State :=
  if is_error then
    let st := bump incr_tool_errors st in
    if last_is_bash (recent_tools st)
    then set_recent_bash_failed true (bump incr_bash_failures st)
    else st
  else st.

(** The body of [for item in content] (lines 150-202). *)
Definition analyze_item (st : State) (item : Item) : State :=
  match item with
  | tool_use tool_name tool_input => on_tool_use tool_name tool_input st
  | tool_result is_error => on_tool_result is_error st
  | _ => st
  end.

Section WithLib.
Context `{PyLib}.

(** [_extract_text] *)
Definition _extract_text (c : Content) : string :=
  match c with
  | content_str s => s
  | content_list items =>
      String.concat " "
        (omap (fun item => match item with
                           | dict_item (text_item t) => Some t
                           | str_element t => Some t
                           | _ => None
                           end) items)
  | content_other => ""
  end.

(** [_contains_rejection] *)
Definition _contains_rejection (text : string) : bool :=
  let text_lower := str_lower text in
  existsb (fun pattern => re_search pattern text_lower) REJECTION_KEYWORDS.

(** One turn of [for item in content]: [item.get] raises
    [AttributeError] on an element that is not a dict. *)
Definition analyze_element (st : State) (el : Element) : Outcome State :=
  match el with
  | dict_item item => Returns (analyze_item st item)
  | _ => Raises st
  end.

(** The body of [for entry in self.parse_jsonl(file_path)]
    (lines 122-202).  [entry.get] raises on a value that is not an
    object, [message.get] on a message that is not a dict. *)
Definition analyze_entry (st : State) (v : Value) : Outcome State :=
  match v with
  | non_object => Raises st
  | object entry =>
      if bool_decide (entry_type entry = Some "summary") then Returns st
      else
        match message entry with
        | message_other => Raises st
        | message_dict message =>
            let role := role message in
            let content := content message in
            if bool_decide (role = Some "user") then
              let st := bump incr_user_messages st in
              let user_text := _extract_text content in
              if _contains_rejection user_text
              then Returns (bump incr_user_rejections st)
              else Returns st
            else if bool_decide (role = Some "assistant") then
              match content with
              | content_list items => for_each analyze_element st items
              | _ => Returns st
              end
            else Returns st
        end
  end.

(** A call of [analyze_session]: fresh locals, the analyzer's counters
    as they stand. *)
Definition session_start (m : VerificationMetrics) : State :=
  {| self_metrics := m; session_metrics := zero_metrics;
     recent_tools := []; recent_bash_failed := false |}.

(** The loop of [analyze_session], with the way it ends and the whole
    state at that point. *)
Definition analyze_session_from (m : VerificationMetrics) (f : File) : Outcome State :=
  for_each analyze_entry (session_start m) (parse_jsonl f).

(** [analyze_session]: the dict [session_metrics] when the call returns,
    [None] when it raises. *)
Definition analyze_session (m : VerificationMetrics) (f : File)
    : option VerificationMetrics :=
  session_metrics <$> returned (analyze_session_from m f).

(** *** Vocabulary for the statements about the counters *)

(** The elements that the [for item in content] loop of
    [analyze_session] is run on: those of the assistant records that are
    not summaries and whose content is a list; none when the record makes
    the body raise before the loop. *)
Definition entry_elements (v : Value) : list Element :=
  match v with
  | object entry =>
      if bool_decide (entry_type entry = Some "summary") then []
      else
        match message entry with
        | message_dict message =>
            if bool_decide (role message = Some "user") then []
            else if bool_decide (role message = Some "assistant") then
              match content message with
              | content_list items => items
              | _ => []
              end
            else []
        | message_other => []
        end
  | non_object => []
  end.

(** The record makes the body of the loop over records raise. *)
Definition entry_raises (v : Value) : bool :=
  match v with
  | non_object => true
  | object entry =>
      negb (bool_decide (entry_type entry = Some "summary"))
      && match message entry with
         | message_other => true
         | message_dict _ =>
             negb (forallb is_dict (entry_elements v))
         end
  end.

(** The dicts at the head of a list of elements: those the loop handles
    before it meets an element that is not a dict. *)
Fixpoint handled (els : list Element) : list Item :=
  match els with
  | dict_item item :: els' => item :: handled els'
  | _ => []
  end.

(** The content items that a session hands to the [tool_use] and
    [tool_result] branches, in order, up to the record that makes the
    session raise, if there is one. *)
Fixpoint session_items (records : list Value) : list Item :=
  match records with
  | [] => []
  | v :: records' =>
      if entry_raises v then handled (entry_elements v)
      else handled (entry_elements v) ++ session_items records'
  end.

(** The tool invocations among them: name and file path. *)
Definition session_tool_uses (records : list Value) : list (string * option string) :=
  omap (fun item => match item with
                    | tool_use name input => Some (name, file_path_val_of input)
                    | _ => None
                    end) (session_items records).

(** The reading "the same path appears in any of the previous 5
    modification events": the window is taken over the earlier
    Edit/Write/MultiEdit invocations only. *)
Definition in_previous_5_modifications (file_path_val : option string)
    (recent : list RecentTool) : bool :=
  existsb (same_file_edit file_path_val)
          (last5 (List.filter (fun t => is_edit_tool (rt_tool t)) recent)).

(** The tool invocation is an edit of a named file and one of the five
    tool invocations before it, of whatever tool, is an edit of the same
    file. *)
Definition edits_recent_file (tool_name : string) (file_path_val : option string)
    (recent : list RecentTool) : Prop :=
  is_edit_tool tool_name = true /\ opt_truthy file_path_val = true
  /\ exists i prev, recent !! i = Some prev /\ (length recent <= i + 5)%nat
                    /\ is_edit_tool (rt_tool prev) = true
                    /\ rt_path prev = file_path_val.

(** Every counter is non-negative, and the three counters that are only
    bumped together with a larger one stay below it. *)
Definition counters_ok (m : VerificationMetrics) : Prop :=
  0 <= total_tool_uses m /\ 0 <= tool_errors m /\ 0 <= bash_retries m
  /\ 0 <= total_user_messages m
  /\ 0 <= bash_failures m <= tool_errors m
  /\ 0 <= consecutive_edits_same_file m <= total_tool_uses m
  /\ 0 <= user_rejection_messages m <= total_user_messages m.

(** Both copies of the counters, the analyzer's and the session's. *)
Definition state_ok (st : State) : Prop :=
  counters_ok (self_metrics st) /\ counters_ok (session_metrics st).

End WithLib.
End Verification.

(** ** The corpus scan and the report ([run], [_generate_report]) *)

Module Report.
Import Verification.

(** [needle in s] on strings. *)
Fixpoint str_contains (needle s : string) : bool :=
  String.prefix needle s ||
  match s with
  | EmptyString => false
  | String _ s' => str_contains needle s'
  end.

Section WithLib.
Context `{PyLib}.

(** The body of the loop of [run] over the files found, each given by
    its name and its contents: agent files are skipped, every other file
    is a call of [analyze_session] on the analyzer's counters.  An
    exception that leaves [analyze_session] leaves [run] too, with the
    counters as they are then. *)
Definition run_file (m : VerificationMetrics) (nf : string * File)
    : Outcome VerificationMetrics :=
  if str_contains "agent-" nf.1 then Returns m
  else
    match analyze_session_from m nf.2 with
    | Returns st => Returns (self_metrics st)
    | Raises st => Raises (self_metrics st)
    end.

(** [files[:limit]] under [if limit:]; [None] and [0] leave the list whole. *)
Definition limit_files {A} (limit : option nat) (files : list A) : list A :=
  match limit with
  | Some (S n) => take (S n) files
  | _ => files
  end.

(** [run], up to the call of [_generate_report]: the counters of a fresh
    analyzer when the scan ends, and the way it ends. *)
Definition run (limit : option nat) (files : list (string * File))
    : Outcome VerificationMetrics :=
  for_each run_file zero_metrics (limit_files limit files).

End WithLib.

Section Rates.
Context {F : Type} `{PyNum F}.

(** The four properties of [VerificationMetrics] (lines 61-77):
    [a / b if b > 0 else 0]. *)
Definition rate (a b : Z) : F :=
  if (0 <? b)%Z then int_div a b else of_int 0.

Definition error_rate (m : VerificationMetrics) : F :=
  rate (tool_errors m) (total_tool_uses m).

Definition bash_failure_rate (m : VerificationMetrics) : F :=
  rate (bash_failures m) (total_tool_uses m).

Definition correction_rate (m : VerificationMetrics) : F :=
  rate (consecutive_edits_same_file m) (total_tool_uses m).

Definition user_rejection_rate (m : VerificationMetrics) : F :=
  rate (user_rejection_messages m) (total_user_messages m).

(** [_generate_report], lines 260-268. *)
Definition verification_score (m : VerificationMetrics) : F :=
  nadd (nadd (nmul (error_rate m) (lit 3 10))
             (nmul (correction_rate m) (lit 4 10)))
       (nmul (user_rejection_rate m) (lit 3 10)).

Definition endorsement_proxy (m : VerificationMetrics) : F :=
  nsub (of_int 1) (verification_score m).

End Rates.

(** Counters with the rates of the composite-score example: 10 errors
    and 5 corrections in 100 tool uses, 20 rejections in 100 user
    messages. *)
Definition example_metrics : VerificationMetrics :=
  {| total_tool_uses := 100; tool_errors := 10; bash_failures := 0;
     bash_retries := 0; consecutive_edits_same_file := 5;
     user_rejection_messages := 20; total_user_messages := 100 |}.

End Report.

(** ** The delegation score ([compute_weekly_delegation.py], lines 17-38) *)

Module Delegation.

Section Score.
Context {F : Type} `{PyNum F}.

(** [DELEGATION_WEIGHTS] *)
Definition DELEGATION_WEIGHTS : gmap string F :=
  <["exploration" := lit 1 1]>
  (<["planning" := lit 1 1]>
  (<["modification" := lit 1 2]>
  (<["execution" := lit 1 2]>
  (<["interaction" := lit 0 1]>
  (<["other" := lit 1 2]> ∅))))).

(** [DELEGATION_WEIGHTS.get(category, 0.5)] *)
Definition weight_of (category : string) : F :=
  default (lit 1 2) (DELEGATION_WEIGHTS !! category).

(** [sum(category_counts.values())] *)
Definition total_count (category_counts : list (string * Z)) : Z :=
  foldl Z.add 0 (map snd category_counts).

(** The body of the [for] loop, lines 34-36. *)
Definition add_category (total : Z) (weighted_sum : F) (cc : string * Z) : F :=
  let weight := weight_of cc.1 in
  let percentage := nmul (int_div cc.2 total) (of_int 100) in
  nadd weighted_sum (nmul percentage weight).

(** [compute_delegation_score], on the items of the dict in insertion
    order. *)
Definition compute_delegation_score (category_counts : list (string * Z)) : F :=
  let total := total_count category_counts in
  if (total =? 0)%Z then of_int 0
  else
    let weighted_sum := foldl (add_category total) (of_int 0) category_counts in
    ndiv weighted_sum (of_int 100).

End Score.

(** The sum of a list of rationals, for the closed form of the score. *)
Definition Qsum (l : list Q) : Q := foldr Qplus (0 # 1) l.

(** One summand of the closed form: [(count / total) * 100 * weight]. *)
Definition score_term (total : Z) (cc : string * Z) : Q :=
  (inject_Z cc.2 / inject_Z total * inject_Z 100 * weight_of (F := Q) cc.1)%Q.

End Delegation.

(** ** A concrete library, for examples

    A toy decoder: a line is a short code that stands for a line of a
    transcript; any other non-blank line is rejected as malformed. *)

Module Toy.

Definition assistant (items : list Item) : Value :=
  object {| entry_type := Some "message"; timestamp := "";
            message := message_dict
                         {| role := Some "assistant"; msg_model := None;
                            content := content_list (map dict_item items) |} |}.

Definition user (s : string) : Value :=
  object {| entry_type := Some "message"; timestamp := "";
            message := message_dict
                         {| role := Some "user"; msg_model := None;
                            content := content_str s |} |}.

Definition input_of (path : string) : option (gmap string string) :=
  Some (<["file_path" := path]> ∅).

(** ["B"], ["R"], ["E"]: one Bash, Read, Edit invocation; ["X"]: one
    error result; ["BXX"]: a Bash invocation and two error results;
    ["U"]: a user message; ["42"]: a line that holds a number; ["DEEP"]: a
    line nested so deeply that [json.loads] raises [RecursionError]. *)
Definition decode (line : string) : Loaded :=
  if String.eqb line "B" then loads (assistant [tool_use "Bash" (Some ∅)])
  else if String.eqb line "R" then loads (assistant [tool_use "Read" (input_of "a.py")])
  else if String.eqb line "E" then loads (assistant [tool_use "Edit" (input_of "a.py")])
  else if String.eqb line "X" then loads (assistant [tool_result true])
  else if String.eqb line "BXX" then
    loads (assistant [tool_use "Bash" (Some ∅); tool_result true; tool_result true])
  else if String.eqb line "U" then loads (user "no")
  else if String.eqb line "42" then loads non_object
  else if String.eqb line "DEEP" then other_exception
  else JSONDecodeError.

Definition lib : PyLib := {|
  str_strip := id;
  json_loads := decode;
  re_search := fun pattern s => String.eqb pattern ("\b" +:+ s +:+ "\b");
  str_lower := id;
  re_sub := fun _ _ s => s;
  path_name := id;
|}.

End Toy.

(** ** Vocabulary for the statements about whole sessions and corpora *)

Module Counting.
Import Verification Report.

(** The pointwise sum of two sets of counters. *)
Definition metrics_add (a b : VerificationMetrics) : VerificationMetrics :=
  {| total_tool_uses := total_tool_uses a + total_tool_uses b;
     tool_errors := tool_errors a + tool_errors b;
     bash_failures := bash_failures a + bash_failures b;
     bash_retries := bash_retries a + bash_retries b;
     consecutive_edits_same_file :=
       consecutive_edits_same_file a + consecutive_edits_same_file b;
     user_rejection_messages := user_rejection_messages a + user_rejection_messages b;
     total_user_messages := total_user_messages a + total_user_messages b |}.

(** The state of a session run on top of the counters [m], from the
    state of the same session run on top of nothing. *)
Definition on_top_of (m : VerificationMetrics) (st : State) : State :=
  {| self_metrics := metrics_add m (session_metrics st);
     session_metrics := session_metrics st;
     recent_tools := recent_tools st;
     recent_bash_failed := recent_bash_failed st |}.

(** The same way of ending, with the state changed by [f]. *)
Definition outcome_map {A B} (f : A -> B) (o : Outcome A) : Outcome B :=
  match o with
  | Returns a => Returns (f a)
  | Raises a => Raises (f a)
  end.

(** An increment commutes with adding counters on the left. *)
Definition shifts (f : VerificationMetrics -> VerificationMetrics) : Prop :=
  forall m s, f (metrics_add m s) = metrics_add m (f s).

(** A failed Bash command is waiting for its retry. *)
Definition pending (st : State) : Z := if recent_bash_failed st then 1 else 0.

(** Retries never outnumber failures, in either copy of the counters,
    even counting the retry that is still to come. *)
Definition retries_ok (st : State) : Prop :=
  bash_retries (self_metrics st) + pending st <= bash_failures (self_metrics st)
  /\ bash_retries (session_metrics st) + pending st
     <= bash_failures (session_metrics st).

(** A content item that is a Bash invocation. *)
Definition is_bash_use (item : Item) : bool :=
  match item with
  | tool_use name _ => String.eqb name "Bash"
  | _ => false
  end.

End Counting.

(** * Properties *)

Module CategoryFacts.
Import Category.

Lemma str_in_In (s : string) (l : list string) : str_in s l = true <-> In s l.
Proof.
  unfold str_in. rewrite existsb_exists. split.
  - intros (x & Hx & Heq). apply String.eqb_eq in Heq. now subst.
  - intros Hin. exists s. split; [assumption | apply String.eqb_refl].
Qed.

Lemma str_in_false (s : string) (l : list string) : str_in s l = false <-> ~ In s l.
Proof.
  rewrite <- str_in_In. destruct (str_in s l); split; congruence.
Qed.

Ltac split_table H :=
  repeat (destruct H as [H | H]; [injection H as <- <- | ]); [ .. | destruct H].

Ltac known_name :=
  split; [ vm_compute; tauto | split; [ | split ] ];
  [ let c := fresh "c" in let tools := fresh "tools" in let Hin := fresh "Hin" in
    intros c tools Hin; simpl in Hin; split_table Hin;
    vm_compute; split; intros Hx; try discriminate Hx; try tauto;
    repeat (destruct Hx as [Hx | Hx]; [discriminate Hx | ]); try destruct Hx
  | split;
    [ intros Hno; exfalso;
      first [ apply (Hno _ _ (or_introl eq_refl)); vm_compute; tauto
            | apply (Hno _ _ (or_intror (or_introl eq_refl))); vm_compute; tauto
            | apply (Hno _ _ (or_intror (or_intror (or_introl eq_refl)))); vm_compute; tauto
            | apply (Hno _ _ (or_intror (or_intror (or_intror (or_introl eq_refl))))); vm_compute; tauto
            | apply (Hno _ _ (or_intror (or_intror (or_intror (or_intror (or_introl eq_refl)))))); vm_compute; tauto ]
    | vm_compute; discriminate ]
  | vm_compute; discriminate ].

(** C7 (amended).  [get_tool_category] is a total function on strings: for
    every tool name it returns one of the six names exploration,
    modification, execution, planning, interaction and other; it returns
    the category of the table whose list holds the name, and only that
    one; it returns other exactly when no list of the table holds the
    name; and it never returns advanced. *)
Theorem get_tool_category_total (tool_name : string) :
  In (get_tool_category tool_name) categories
  /\ (forall c tools, In (c, tools) TOOL_CATEGORIES ->
        (get_tool_category tool_name = c <-> In tool_name tools))
  /\ ((forall c tools, In (c, tools) TOOL_CATEGORIES -> ~ In tool_name tools)
        <-> get_tool_category tool_name = "other")
  /\ get_tool_category tool_name <> "advanced".
Proof.
  destruct (str_in tool_name ["Read"; "Glob"; "Grep"; "WebSearch"; "WebFetch"; "LSP"]) eqn:E1.
  { apply str_in_In in E1. simpl in E1.
    repeat (destruct E1 as [<- | E1]; [known_name | ]). destruct E1. }
  destruct (str_in tool_name ["Write"; "Edit"; "MultiEdit"; "NotebookEdit"]) eqn:E2.
  { apply str_in_In in E2. simpl in E2.
    repeat (destruct E2 as [<- | E2]; [known_name | ]). destruct E2. }
  destruct (str_in tool_name ["Bash"; "Task"; "TaskOutput"; "KillShell"]) eqn:E3.
  { apply str_in_In in E3. simpl in E3.
    repeat (destruct E3 as [<- | E3]; [known_name | ]). destruct E3. }
  destruct (str_in tool_name ["TodoWrite"; "EnterPlanMode"; "ExitPlanMode"]) eqn:E4.
  { apply str_in_In in E4. simpl in E4.
    repeat (destruct E4 as [<- | E4]; [known_name | ]). destruct E4. }
  destruct (str_in tool_name ["AskUserQuestion"]) eqn:E5.
  { apply str_in_In in E5. simpl in E5.
    repeat (destruct E5 as [<- | E5]; [known_name | ]). destruct E5. }
  assert (Hother : get_tool_category tool_name = "other").
  { unfold get_tool_category, TOOL_CATEGORIES. cbn [List.find snd fst].
    now rewrite E1, E2, E3, E4, E5. }
  apply str_in_false in E1, E2, E3, E4, E5.
  rewrite Hother. split; [ vm_compute; tauto | split; [ | split ] ].
  - intros c tools Hin. simpl in Hin. split_table Hin; split;
      solve [ discriminate | tauto ].
  - split; [ reflexivity | ].
    intros _ c tools Hin. simpl in Hin. split_table Hin; assumption.
  - discriminate.
Qed.
(** C7 as stated fails on the advanced category: a browser-automation tool
    that the repository's other table lists under advanced is mapped to
    other. *)
Lemma advanced_category_counterexample :
  (exists tools, In ("advanced", tools) tool_categories_advanced_analysis
                 /\ In "mcp__playwright__browser_navigate" tools)
  /\ get_tool_category "mcp__playwright__browser_navigate" = "other"
  /\ get_tool_category "mcp__playwright__browser_navigate" <> "advanced".
Proof.
  split; [ | split; [ reflexivity | vm_compute; discriminate ] ].
  eexists. split; [ do 5 right; left; reflexivity | simpl; tauto ].
Qed.

End CategoryFacts.

Module ExtractorFacts.
Import Extractor.

Section WithLib.
Context `{PyLib}.

Lemma alter_last {A} (f : A -> A) (l : list A) (x : A) :
  alter f (pred (length (l ++ [x]))) (l ++ [x]) = l ++ [f x].
Proof.
  rewrite length_app. simpl.
  replace (pred (length l + 1)) with (length l + 0)%nat by lia.
  now rewrite alter_app_r.
Qed.

(** C8.  On a tool-result item the extractor leaves an empty event list
    empty; on a list with a last event it replaces that event by the same
    event with [success] set to [not is_error], and every other event and
    every other field of the last one is as before. *)
Theorem tool_result_overwrites_last_success (timestamp : string)
    (current_model : option string) (is_error : bool) :
  extract_item timestamp current_model [] (tool_result is_error) = []
  /\ forall (events : list ToolEvent) (e : ToolEvent),
       extract_item timestamp current_model (events ++ [e]) (tool_result is_error)
         = events ++ [set_success (negb is_error) e]
       /\ success (set_success (negb is_error) e) = negb is_error
       /\ tool_name (set_success (negb is_error) e) = tool_name e
       /\ category (set_success (negb is_error) e) = category e
       /\ ev_timestamp (set_success (negb is_error) e) = ev_timestamp e
       /\ input_preview (set_success (negb is_error) e) = input_preview e
       /\ model (set_success (negb is_error) e) = model e
       /\ file_path (set_success (negb is_error) e) = file_path e.
Proof.
  split; [reflexivity | ].
  intros events e. split; [ | repeat split ].
  unfold extract_item.
  destruct (events ++ [e]) as [ | e0 l ] eqn:Heq.
  - destruct events; discriminate Heq.
  - rewrite <- Heq. apply alter_last.
Qed.

End WithLib.
End ExtractorFacts.

Module ReaderFacts.
Import Extractor Verification.

Section WithLib.
Context `{PyLib}.





End WithLib.



End ReaderFacts.

Module DetectorFacts.
Import Category Extractor Detectors.
Local Open Scope nat_scope.

Lemma find_seq_Some (p : nat -> bool) (len lo j : nat) :
  List.find p (seq lo len) = Some j <->
  lo <= j < lo + len /\ p j = true /\ forall j', lo <= j' < j -> p j' = false.
Proof.
  revert lo. induction len as [ | len IH ]; intros lo; simpl.
  - split; [ discriminate | lia ].
  - destruct (p lo) eqn:Hp.
    + split.
      * intros [= <-]. repeat split; [ lia | lia | assumption | lia ].
      * intros (Hr & Hj & Hmin). f_equal.
        destruct (decide (lo = j)) as [ | Hne ]; [ assumption | ].
        rewrite (Hmin lo) in Hp; [ discriminate | lia ].
    + rewrite IH. split.
      * intros (Hr & Hj & Hmin). repeat split; [ lia | lia | assumption | ].
        intros j' Hj'. destruct (decide (j' = lo)) as [ -> | ]; [ assumption | ].
        apply Hmin. lia.
      * intros (Hr & Hj & Hmin).
        assert (lo <> j) by (intros ->; congruence).
        repeat split; [ lia | lia | assumption | ].
        intros j' Hj'. apply Hmin. lia.
Qed.

Lemma find_seq_None (p : nat -> bool) (len lo : nat) :
  List.find p (seq lo len) = None <-> forall j, lo <= j < lo + len -> p j = false.
Proof.
  revert lo. induction len as [ | len IH ]; intros lo; simpl.
  - split; [ lia | reflexivity ].
  - destruct (p lo) eqn:Hp.
    + split; [ discriminate | ]. intros Hall. rewrite (Hall lo) in Hp; [ discriminate | lia ].
    + rewrite IH. split.
      * intros Hall j Hj. destruct (decide (j = lo)) as [ -> | ]; [ assumption | ].
        apply Hall. lia.
      * intros Hall j Hj. apply Hall. lia.
Qed.

Lemma first_in_window_Some (p : nat -> bool) (n lo j : nat) :
  first_in_window p n lo = Some j <-> first_hit p n lo j.
Proof.
  unfold first_in_window, first_hit. rewrite find_seq_Some.
  split; intros (Hr & Hrest); (split; [ lia | exact Hrest ]).
Qed.

Lemma first_in_window_None (p : nat -> bool) (n lo : nat) :
  first_in_window p n lo = None <-> no_hit p n lo.
Proof.
  unfold first_in_window, no_hit. rewrite find_seq_None.
  split; intros Hall j Hj; apply Hall; lia.
Qed.

(** The budget is never exhausted: any budget that covers the indices
    still ahead gives the same matches. *)
Lemma eem_loop_fuel (events : list ToolEvent) (fuel i : nat) :
  length events - i <= fuel -> eem_loop fuel events i = eem_from events i.
Proof.
  unfold eem_from.
  revert i. induction fuel as [ fuel IH ] using lt_wf_ind. intros i Hfuel.
  destruct fuel as [ | fuel ].
  { replace (length events - i) with 0 by lia. reflexivity. }
  destruct (length events - i) as [ | rest ] eqn:Hrest.
  { simpl. rewrite bool_decide_eq_false_2 by lia. reflexivity. }
  simpl. case_bool_decide as Hguard; [ | reflexivity ].
  assert (Hstep : forall i', i < i' -> eem_loop fuel events i' = eem_loop rest events i').
  { intros i' Hi'. rewrite (IH fuel) by lia.
    symmetry. apply (IH rest); lia. }
  destruct (category_at events "execution" i); [ | apply Hstep; lia ].
  destruct (first_in_window _ _ (i + 1)) as [ j | ] eqn:Hj; [ | apply Hstep; lia ].
  apply first_in_window_Some in Hj. destruct Hj as (Hj & _).
  destruct (first_in_window _ _ (j + 1)) as [ k | ] eqn:Hk; [ | apply Hstep; lia ].
  apply first_in_window_Some in Hk. destruct Hk as (Hk & _).
  f_equal. apply Hstep. lia.
Qed.

Lemma eem_from_0 (events : list ToolEvent) :
  find_execute_explore_modify_cycles events = eem_from events 0.
Proof. apply eem_loop_fuel. lia. Qed.

Lemma eem_from_unfold (events : list ToolEvent) (i : nat) :
  eem_from events i =
    if bool_decide (i + 2 < length events) then
      if category_at events "execution" i then
        match first_in_window (category_at events "exploration")
                (length events) (i + 1) with
        | Some j =>
            match first_in_window (category_at events "modification")
                    (length events) (j + 1) with
            | Some k => (i, k + 1) :: eem_from events (k + 1)
            | None => eem_from events (i + 1)
            end
        | None => eem_from events (i + 1)
        end
      else eem_from events (i + 1)
    else [].
Proof.
  unfold eem_from at 1.
  destruct (length events - i) as [ | rest ] eqn:Hrest.
  { simpl. rewrite bool_decide_eq_false_2 by lia. reflexivity. }
  simpl. case_bool_decide as Hguard; [ | reflexivity ].
  destruct (category_at events "execution" i); [ | apply eem_loop_fuel; lia ].
  destruct (first_in_window _ _ (i + 1)) as [ j | ] eqn:Hj;
    [ | apply eem_loop_fuel; lia ].
  destruct (first_in_window _ _ (j + 1)) as [ k | ] eqn:Hk;
    [ | apply eem_loop_fuel; lia ].
  f_equal. apply eem_loop_fuel.
  apply first_in_window_Some in Hj, Hk. destruct Hj as (Hj & _), Hk as (Hk & _). lia.
Qed.

(** C5.  The scan of the execute-explore-modify detector, one index at a
    time ([eem_from events i] is the list of matches found from index [i]
    on, and the detector returns [eem_from events 0]): with fewer than
    three events left it stops; at an event that is not an execution, or
    whose window of the next four events holds no exploration, or whose
    first exploration [j] has no modification in the four events after it,
    it moves to [i + 1]; otherwise, with [k] the first such modification,
    it emits [(i, k + 1)] and goes on from [k + 1].  On an execution, an
    exploration and a modification in a row it returns the one match
    [(0, 3)]. *)
Theorem execute_explore_modify_scan (events : list ToolEvent) (i : nat) :
  find_execute_explore_modify_cycles events = eem_from events 0
  /\ (length events <= i + 2 -> eem_from events i = [])
  /\ (i + 2 < length events -> category_at events "execution" i = false ->
        eem_from events i = eem_from events (i + 1))
  /\ (i + 2 < length events -> category_at events "execution" i = true ->
        no_hit (category_at events "exploration") (length events) (i + 1) ->
        eem_from events i = eem_from events (i + 1))
  /\ (forall j, i + 2 < length events -> category_at events "execution" i = true ->
        first_hit (category_at events "exploration") (length events) (i + 1) j ->
        no_hit (category_at events "modification") (length events) (j + 1) ->
        eem_from events i = eem_from events (i + 1))
  /\ (forall j k, i + 2 < length events -> category_at events "execution" i = true ->
        first_hit (category_at events "exploration") (length events) (i + 1) j ->
        first_hit (category_at events "modification") (length events) (j + 1) k ->
        eem_from events i = (i, k + 1) :: eem_from events (k + 1))
  /\ (forall e1 e2 e3, category e1 = "execution" -> category e2 = "exploration" ->
        category e3 = "modification" ->
        find_execute_explore_modify_cycles [e1; e2; e3] = [(0, 3)]).
Proof.
  split; [ apply eem_from_0 | ].
  split; [ intros Hn; rewrite eem_from_unfold, bool_decide_eq_false_2 by lia; reflexivity | ].
  split; [ intros Hn Hx; rewrite eem_from_unfold, bool_decide_eq_true_2, Hx by lia;
           reflexivity | ].
  split; [ intros Hn Hx Hj; apply first_in_window_None in Hj;
           rewrite eem_from_unfold, bool_decide_eq_true_2, Hx, Hj by lia;
           reflexivity | ].
  split; [ intros j Hn Hx Hj Hk;
           apply first_in_window_Some in Hj; apply first_in_window_None in Hk;
           rewrite eem_from_unfold, bool_decide_eq_true_2, Hx, Hj, Hk by lia;
           reflexivity | ].
  split; [ intros j k Hn Hx Hj Hk;
           apply first_in_window_Some in Hj, Hk;
           rewrite eem_from_unfold, bool_decide_eq_true_2, Hx, Hj, Hk by lia;
           reflexivity | ].
  intros e1 e2 e3 H1 H2 H3.
  unfold find_execute_explore_modify_cycles. simpl.
  unfold category_at, first_in_window. simpl. rewrite H1. simpl.
  rewrite H2. simpl. rewrite H3. reflexivity.
Qed.

Lemma chain_weaken (lo lo' : nat) (l : list (nat * nat)) :
  lo' <= lo -> chain lo l -> chain lo' l.
Proof. destruct l as [ | m l ]; simpl; [ tauto | ]. intros Hle (H1 & H2 & H3). repeat split; [ lia | lia | assumption ]. Qed.

Lemma chain_lookup_ge (lo : nat) (l : list (nat * nat)) (a : nat) (m : nat * nat) :
  chain lo l -> l !! a = Some m -> lo <= m.1 /\ m.1 < m.2.
Proof.
  revert lo a. induction l as [ | m0 l IH ]; intros lo a Hc Ha; [ discriminate | ].
  destruct Hc as (H1 & H2 & H3). destruct a as [ | a ].
  - injection Ha as <-. lia.
  - simpl in Ha. specialize (IH _ _ H3 Ha). lia.
Qed.

Lemma chain_ordered (lo : nat) (l : list (nat * nat)) (a b : nat) (m1 m2 : nat * nat) :
  chain lo l -> a < b -> l !! a = Some m1 -> l !! b = Some m2 -> m1.2 <= m2.1.
Proof.
  revert lo a b. induction l as [ | m0 l IH ]; intros lo a b Hc Hab Ha Hb; [ discriminate | ].
  destruct Hc as (H1 & H2 & H3).
  destruct b as [ | b ]; [ lia | ]. simpl in Hb.
  destruct a as [ | a ].
  - injection Ha as <-. apply (chain_lookup_ge _ _ _ _ H3 Hb).
  - simpl in Ha. apply (IH _ a b H3); [ lia | assumption | assumption ].
Qed.

Lemma chain_pairwise_disjoint (lo : nat) (l : list (nat * nat)) :
  chain lo l -> pairwise_disjoint l.
Proof.
  intros Hc a b m1 m2 Hab Ha Hb. unfold disjoint.
  destruct (decide (a < b)) as [ Hlt | Hge ].
  - left. exact (chain_ordered _ _ _ _ _ _ Hc Hlt Ha Hb).
  - right. apply (chain_ordered _ _ b a _ _ Hc); [ lia | assumption | assumption ].
Qed.

Lemma eem_from_chain (events : list ToolEvent) (i : nat) :
  chain i (eem_from events i).
Proof.
  remember (length events - i) as d eqn:Hd.
  revert i Hd. induction d as [ d IH ] using lt_wf_ind. intros i Hd.
  rewrite eem_from_unfold.
  case_bool_decide as Hguard; [ | exact I ].
  assert (Hnext : forall i', i < i' -> chain i (eem_from events i')).
  { intros i' Hi'. apply (chain_weaken i'); [ lia | ].
    apply (IH (length events - i')); [ lia | reflexivity ]. }
  destruct (category_at events "execution" i); [ | apply Hnext; lia ].
  destruct (first_in_window _ _ (i + 1)) as [ j | ] eqn:Hj; [ | apply Hnext; lia ].
  apply first_in_window_Some in Hj. destruct Hj as (Hj & _).
  destruct (first_in_window _ _ (j + 1)) as [ k | ] eqn:Hk; [ | apply Hnext; lia ].
  apply first_in_window_Some in Hk. destruct Hk as (Hk & _).
  simpl. repeat split; [ lia | lia | ].
  apply (IH (length events - (k + 1))); [ lia | reflexivity ].
Qed.

(** C3 (amended).  Every match returned by the execute-explore-modify
    detector is non-empty, and any two distinct matches it returns are
    disjoint as half-open intervals. *)
Theorem execute_explore_modify_matches_disjoint (events : list ToolEvent) :
  (forall a m,
     find_execute_explore_modify_cycles events !! a = Some m -> m.1 < m.2)
  /\ (forall a b m1 m2,
        a <> b ->
        find_execute_explore_modify_cycles events !! a = Some m1 ->
        find_execute_explore_modify_cycles events !! b = Some m2 ->
        disjoint m1 m2).
Proof.
  rewrite eem_from_0.
  pose proof (eem_from_chain events 0) as Hc.
  split.
  - intros a m Ha. apply (chain_lookup_ge _ _ _ _ Hc Ha).
  - exact (chain_pairwise_disjoint _ _ Hc).
Qed.

Lemma execute_explore_modify_matches_disjoint_witness :
  find_execute_explore_modify_cycles two_cycles = [(0, 3); (3, 6)]
  /\ disjoint (0, 3) (3, 6) /\ 0 < 3 /\ 3 < 6.
Proof.
  split; [ reflexivity | ].
  split; [ | split ].
  - apply (proj2 (execute_explore_modify_matches_disjoint two_cycles) 0 1 (0, 3) (3, 6));
      [ lia | reflexivity | reflexivity ].
  - apply (proj1 (execute_explore_modify_matches_disjoint two_cycles) 0 (0, 3)).
    reflexivity.
  - apply (proj1 (execute_explore_modify_matches_disjoint two_cycles) 1 (3, 6)).
    reflexivity.
Defined.

(** C3 as stated fails for the two other detectors: after two failed
    shell commands and a third command the bash-retry detector returns
    [(0, 2)] and [(1, 3)], and after three edits of one file the
    correction detector returns the same two matches; both share
    index 1. *)
Lemma single_detector_overlap_counterexample :
  find_bash_retry_sequences failed_twice = [(0, 2); (1, 3)]
  /\ ~ pairwise_disjoint (find_bash_retry_sequences failed_twice)
  /\ find_correction_sequences edited_thrice = [(0, 2); (1, 3)]
  /\ ~ pairwise_disjoint (find_correction_sequences edited_thrice).
Proof.
  assert (Hov : ~ pairwise_disjoint [(0, 2); (1, 3)]).
  { intros Hd. specialize (Hd 0 1 (0, 2) (1, 3)).
    unfold disjoint in Hd. simpl in Hd.
    destruct Hd as [ Hd | Hd ]; [ lia | reflexivity | reflexivity | lia | lia ]. }
  repeat split; try reflexivity; exact Hov.
Qed.

(** C6.  The bash-retry detector returns the match [(i, e)] exactly when
    the event at [i] is a failed Bash event and [e = j + 1] for the first
    index [j] after [i], at most four places further, that holds a Bash
    event.  On a failed Bash, a Read and a Bash it returns the one match
    [(0, 3)]; on a failed Bash, five Reads and a Bash it returns none. *)
Theorem bash_retry_matches (events : list ToolEvent) (i e : nat) :
  (In (i, e) (find_bash_retry_sequences events) <->
   exists j event,
     e = j + 1
     /\ events !! i = Some event
     /\ tool_name event = "Bash" /\ success event = false
     /\ i < j <= i + 4 /\ j < length events
     /\ bash_at events j = true
     /\ forall j', i < j' < j -> bash_at events j' = false)
  /\ (forall ok,
        find_bash_retry_sequences
          [ event_of "Bash" false None; event_of "Read" true None;
            event_of "Bash" ok None ] = [(0, 3)])
  /\ (forall ok,
        find_bash_retry_sequences
          [ event_of "Bash" false None; event_of "Read" true None;
            event_of "Read" true None; event_of "Read" true None;
            event_of "Read" true None; event_of "Read" true None;
            event_of "Bash" ok None ] = []).
Proof.
  split; [ | split; intros [ | ]; reflexivity ].
  unfold find_bash_retry_sequences.
  rewrite <- list_elem_of_In, list_elem_of_omap. split.
  - intros (i0 & Hi0 & Hat). unfold bash_retry_at in Hat.
    destruct (events !! i0) as [ event | ] eqn:Hev; [ | discriminate ].
    destruct (String.eqb (tool_name event) "Bash" && negb (success event)) eqn:Hc;
      [ | discriminate ].
    destruct (first_in_window _ _ (i0 + 1)) as [ j | ] eqn:Hj; [ | discriminate ].
    injection Hat as <- <-.
    apply andb_prop in Hc. destruct Hc as (Hname & Hfail).
    apply String.eqb_eq in Hname. apply negb_true_iff in Hfail.
    apply first_in_window_Some in Hj. destruct Hj as (Hr & Hp & Hmin).
    exists j, event. repeat split; try assumption; try lia.
    intros j' Hj'. apply Hmin. lia.
  - intros (j & event & -> & Hev & Hname & Hfail & Hr & Hlen & Hp & Hmin).
    exists i. split.
    + apply elem_of_seq. apply lookup_lt_Some in Hev. lia.
    + unfold bash_retry_at. rewrite Hev, Hname, Hfail. simpl.
      assert (Hj : first_in_window (bash_at events) (length events) (i + 1) = Some j).
      { apply first_in_window_Some. repeat split; try assumption; try lia.
        intros j' Hj'. apply Hmin. lia. }
      now rewrite Hj.
Qed.

End DetectorFacts.

Module CounterFacts.
Import Category Verification.

Lemma scan_recent_existsb (path : option string) (prevs : list RecentTool) (st : State) :
  scan_recent path prevs st =
    if existsb (same_file_edit path) prevs then bump incr_consecutive_edits st else st.
Proof.
  induction prevs as [ | prev prevs IH ]; simpl; [ reflexivity | ].
  destruct (same_file_edit path prev); [ reflexivity | exact IH ].
Qed.

(** [l[-5:]], by positions. *)
Lemma elem_of_last5 {A} (l : list A) (x : A) :
  x ∈ last5 l <-> exists i, l !! i = Some x /\ (length l <= i + 5)%nat.
Proof.
  unfold last5. rewrite list_elem_of_lookup. split.
  - intros (k & Hk). rewrite lookup_drop in Hk.
    exists (length l - 5 + k)%nat. split; [ assumption | lia ].
  - intros (i & Hi & Hlen). exists (i - (length l - 5))%nat.
    rewrite lookup_drop. rewrite <- Hi. f_equal.
    apply lookup_lt_Some in Hi. lia.
Qed.

Lemma existsb_reverse_last5 (path : option string) (l : list RecentTool) :
  existsb (same_file_edit path) (reverse (last5 l)) = true <->
  exists i prev, l !! i = Some prev /\ (length l <= i + 5)%nat
                 /\ is_edit_tool (rt_tool prev) = true /\ rt_path prev = path.
Proof.
  rewrite existsb_exists. split.
  - intros (prev & Hin & Hsame).
    apply list_elem_of_In, elem_of_reverse, elem_of_last5 in Hin.
    destruct Hin as (i & Hi & Hlen).
    unfold same_file_edit in Hsame. apply andb_prop in Hsame.
    destruct Hsame as (Hedit & Hpath). apply bool_decide_eq_true_1 in Hpath.
    exists i, prev. repeat split; assumption.
  - intros (i & prev & Hi & Hlen & Hedit & Hpath).
    exists prev. split.
    + apply list_elem_of_In, elem_of_reverse, elem_of_last5. exists i. split; assumption.
    + unfold same_file_edit. rewrite Hedit. simpl. now apply bool_decide_eq_true_2.
Qed.

Lemma on_tool_use_unfold (tool_name : string) (tool_input : option (gmap string string))
    (st : State) :
  let hit := is_edit_tool tool_name && opt_truthy (file_path_val_of tool_input)
             && existsb (same_file_edit (file_path_val_of tool_input))
                        (reverse (last5 (recent_tools st))) in
  let st' := on_tool_use tool_name tool_input st in
  consecutive_edits_same_file (self_metrics st')
    = consecutive_edits_same_file (self_metrics st) + (if hit then 1 else 0)
  /\ consecutive_edits_same_file (session_metrics st')
    = consecutive_edits_same_file (session_metrics st) + (if hit then 1 else 0)
  /\ total_tool_uses (self_metrics st') = total_tool_uses (self_metrics st) + 1
  /\ total_tool_uses (session_metrics st') = total_tool_uses (session_metrics st) + 1
  /\ recent_tools st'
     = recent_tools st ++ [ {| rt_tool := tool_name;
                               rt_path := file_path_val_of tool_input;
                               rt_success := true;
                               rt_index := length (recent_tools st) |} ].
Proof.
  unfold on_tool_use. cbv zeta.
  set (st1 := bump incr_total_tool_uses st).
  set (st2 := if String.eqb tool_name "Bash" && recent_bash_failed st1
              then set_recent_bash_failed false (bump incr_bash_retries st1) else st1).
  assert (H2 : recent_tools st2 = recent_tools st
               /\ consecutive_edits_same_file (self_metrics st2)
                  = consecutive_edits_same_file (self_metrics st)
               /\ consecutive_edits_same_file (session_metrics st2)
                  = consecutive_edits_same_file (session_metrics st)
               /\ total_tool_uses (self_metrics st2) = total_tool_uses (self_metrics st) + 1
               /\ total_tool_uses (session_metrics st2)
                  = total_tool_uses (session_metrics st) + 1).
  { subst st2 st1. destruct (String.eqb tool_name "Bash" && _); simpl; repeat split. }
  clearbody st2. clear st1.
  destruct H2 as (Hr & Hc1 & Hc2 & Ht1 & Ht2).
  rewrite scan_recent_existsb, Hr.
  destruct (is_edit_tool tool_name && opt_truthy (file_path_val_of tool_input)); simpl.
  - destruct (existsb _ _); simpl; rewrite ?Hr, ?Hc1, ?Hc2, ?Ht1, ?Ht2;
      repeat split; lia.
  - rewrite ?Hr, ?Hc1, ?Hc2, ?Ht1, ?Ht2. repeat split; lia.
Qed.

(** The loop over the elements of a content list is the fold of the
    body over the dicts at its head; it raises when an element is not a
    dict. *)
Lemma for_each_analyze_element (st : State) (els : list Element) :
  for_each analyze_element st els
  = (if forallb is_dict els then Returns else Raises)
      (foldl analyze_item st (handled els)).
Proof.
  revert st. induction els as [ | el els IH ]; intros st; [ reflexivity | ].
  destruct el as [ item | s | ]; [ | reflexivity | reflexivity ].
  simpl. apply IH.
Qed.

Lemma recent_tools_items (st : State) (items : list Item) :
  map (fun t => (rt_tool t, rt_path t)) (recent_tools (foldl analyze_item st items))
  = map (fun t => (rt_tool t, rt_path t)) (recent_tools st)
    ++ omap (fun item => match item with
                         | tool_use name input => Some (name, file_path_val_of input)
                         | _ => None
                         end) items.
Proof.
  revert st. induction items as [ | item items IH ]; intros st; simpl.
  - now rewrite app_nil_r.
  - rewrite IH. destruct item as [ name input | is_error | t | ].
    + change (analyze_item st (tool_use name input)) with (on_tool_use name input st).
      destruct (on_tool_use_unfold name input st) as (_ & _ & _ & _ & ->).
      rewrite map_app. simpl. now rewrite <- app_assoc.
    + simpl. unfold on_tool_result. destruct is_error; [ | reflexivity ].
      destruct (last_is_bash _); reflexivity.
    + reflexivity.
    + reflexivity.
Qed.

Section WithLib.
Context `{PyLib}.

(** One record: the state reached is the fold of the body over the
    handled items, whatever else the record changes, and the record ends
    the session exactly when [entry_raises] says so. *)
Lemma analyze_entry_handled (st : State) (v : Value) :
  recent_tools (state_of (analyze_entry st v))
  = recent_tools (foldl analyze_item st (handled (entry_elements v)))
  /\ analyze_entry st v
     = (if entry_raises v then Raises else Returns) (state_of (analyze_entry st v)).
Proof.
  destruct v as [ entry | ]; [ | split; reflexivity ].
  unfold analyze_entry, entry_raises, entry_elements.
  case_bool_decide; [ split; reflexivity | ].
  destruct (message entry) as [ message | ]; [ | split; reflexivity ].
  case_bool_decide.
  { destruct (_contains_rejection _); split; reflexivity. }
  case_bool_decide; [ | split; reflexivity ].
  destruct (content message) as [ els | s | ]; [ | split; reflexivity | split; reflexivity ].
  rewrite for_each_analyze_element. simpl.
  destruct (forallb is_dict els); split; reflexivity.
Qed.

Lemma recent_tools_entries (st : State) (records : list Value) :
  map (fun t => (rt_tool t, rt_path t))
      (recent_tools (state_of (for_each analyze_entry st records)))
  = map (fun t => (rt_tool t, rt_path t)) (recent_tools st)
    ++ session_tool_uses records.
Proof.
  unfold session_tool_uses.
  revert st. induction records as [ | v records IH ]; intros st; simpl.
  - now rewrite app_nil_r.
  - destruct (analyze_entry_handled st v) as (Hrecent & Hout).
    rewrite Hout. destruct (entry_raises v); simpl.
    + rewrite Hrecent. apply recent_tools_items.
    + rewrite IH, Hrecent, recent_tools_items, omap_app. now rewrite app_assoc.
Qed.

(** C4 (amended).  A tool invocation bumps the correction counter (both
    copies, by exactly one) exactly when it is an Edit, Write or MultiEdit
    with a file path and one of the five tool invocations before it in the
    session, of whatever tool, is an Edit, Write or MultiEdit of the same
    path; otherwise the counter is left as it was.  The list
    [recent_tools] the window is taken from is the list of all the tool
    invocations of the session so far. *)
Theorem immediate_correction_window (m : VerificationMetrics) (f : File)
    (st : State) (tool_name : string) (tool_input : option (gmap string string)) :
  ((consecutive_edits_same_file (self_metrics (on_tool_use tool_name tool_input st))
      = consecutive_edits_same_file (self_metrics st) + 1
    /\ consecutive_edits_same_file (session_metrics (on_tool_use tool_name tool_input st))
      = consecutive_edits_same_file (session_metrics st) + 1)
   <-> edits_recent_file tool_name (file_path_val_of tool_input) (recent_tools st))
  /\ ((consecutive_edits_same_file (self_metrics (on_tool_use tool_name tool_input st))
      = consecutive_edits_same_file (self_metrics st)
    /\ consecutive_edits_same_file (session_metrics (on_tool_use tool_name tool_input st))
      = consecutive_edits_same_file (session_metrics st))
   <-> ~ edits_recent_file tool_name (file_path_val_of tool_input) (recent_tools st))
  /\ map (fun t => (rt_tool t, rt_path t))
         (recent_tools (state_of (analyze_session_from m f)))
     = session_tool_uses (parse_jsonl f).
Proof.
  destruct (on_tool_use_unfold tool_name tool_input st) as (Hc1 & Hc2 & _).
  rewrite Hc1, Hc2. clear Hc1 Hc2.
  assert (Hhit : is_edit_tool tool_name && opt_truthy (file_path_val_of tool_input)
                 && existsb (same_file_edit (file_path_val_of tool_input))
                            (reverse (last5 (recent_tools st))) = true
                 <-> edits_recent_file tool_name (file_path_val_of tool_input)
                       (recent_tools st)).
  { unfold edits_recent_file. rewrite <- existsb_reverse_last5.
    rewrite !andb_true_iff. tauto. }
  split; [ | split ].
  - rewrite <- Hhit. destruct (_ && _ && _); split; intros; try lia; try reflexivity.
  - rewrite <- Hhit. destruct (_ && _ && _); split; intros; try lia; try congruence.
  - unfold analyze_session_from. now rewrite recent_tools_entries.
Qed.

End WithLib.

(** C4 as stated fails: after an Edit of [a.py] and five Reads, a second
    Edit of [a.py] has that path among the previous five modification
    events, and the counter stays at 0. *)
Lemma previous_5_modifications_counterexample :
  in_previous_5_modifications (Some "a.py")
    (recent_tools (state_of (@analyze_session_from Toy.lib zero_metrics
                               (file_of_lines ["E"; "R"; "R"; "R"; "R"; "R"])))) = true
  /\ consecutive_edits_same_file
       <$> @analyze_session Toy.lib zero_metrics
             (file_of_lines ["E"; "R"; "R"; "R"; "R"; "R"]) = Some 0
  /\ consecutive_edits_same_file
       <$> @analyze_session Toy.lib zero_metrics
             (file_of_lines ["E"; "R"; "R"; "R"; "R"; "R"; "E"]) = Some 0.
Proof. repeat split; vm_compute; reflexivity. Qed.

End CounterFacts.

Module RateFacts.
Import Category Verification Report CounterFacts.

(** *** The counters *)

Lemma counters_ok_zero : counters_ok zero_metrics.
Proof. unfold counters_ok; simpl; lia. Qed.

Lemma on_tool_use_ok (name : string) (input : option (gmap string string)) (st : State) :
  state_ok st -> state_ok (on_tool_use name input st).
Proof.
  unfold on_tool_use. cbv zeta. rewrite scan_recent_existsb.
  intros (Hs & Hm). unfold state_ok, counters_ok in *.
  destruct (String.eqb name "Bash" && _);
    destruct (is_edit_tool name && _); try destruct (existsb _ _);
    simpl; lia.
Qed.

Lemma on_tool_result_ok (is_error : bool) (st : State) :
  state_ok st -> state_ok (on_tool_result is_error st).
Proof.
  unfold on_tool_result. intros (Hs & Hm). unfold state_ok, counters_ok in *.
  destruct is_error; [ | simpl; lia ].
  destruct (last_is_bash _); simpl; lia.
Qed.

Lemma analyze_items_ok (items : list Item) (st : State) :
  state_ok st -> state_ok (foldl analyze_item st items).
Proof.
  revert st. induction items as [ | item items IH ]; intros st Hst; [ exact Hst | ].
  simpl. apply IH. destruct item; simpl;
    [ now apply on_tool_use_ok | now apply on_tool_result_ok | exact Hst | exact Hst ].
Qed.

Lemma analyze_elements_ok (els : list Element) (st : State) :
  state_ok st -> state_ok (state_of (for_each analyze_element st els)).
Proof.
  intros Hst. rewrite for_each_analyze_element.
  assert (Hfold : state_ok (foldl analyze_item st (handled els)))
    by now apply analyze_items_ok.
  now destruct (forallb is_dict els).
Qed.

(** A loop keeps what each turn keeps, however it ends. *)
Lemma for_each_invariant {A B} (P : A -> Prop) (body : A -> B -> Outcome A) :
  (forall st x, P st -> P (state_of (body st x))) ->
  forall l st, P st -> P (state_of (for_each body st l)).
Proof.
  intros Hbody l. induction l as [ | x l IH ]; intros st Hst; [ exact Hst | ].
  simpl. specialize (Hbody st x Hst).
  destruct (body st x) as [ st' | st' ]; [ now apply IH | exact Hbody ].
Qed.

Section WithLib.
Context `{PyLib}.

Lemma analyze_entry_ok (v : Value) (st : State) :
  state_ok st -> state_ok (state_of (analyze_entry st v)).
Proof.
  intros Hst. destruct v as [ entry | ]; [ | exact Hst ].
  unfold analyze_entry.
  case_bool_decide; [ exact Hst | ].
  destruct (message entry) as [ message | ]; [ | exact Hst ].
  case_bool_decide.
  { destruct Hst as (Hs & Hm). unfold state_ok, counters_ok in *.
    destruct (_contains_rejection _); simpl; lia. }
  case_bool_decide; [ | exact Hst ].
  destruct (content message); [ now apply analyze_elements_ok | exact Hst | exact Hst ].
Qed.

Lemma analyze_session_ok (m : VerificationMetrics) (f : File) :
  counters_ok m -> state_ok (state_of (analyze_session_from m f)).
Proof.
  intros Hm. unfold analyze_session_from.
  apply (for_each_invariant state_ok); [ intros st v; apply analyze_entry_ok | ].
  split; [ exact Hm | apply counters_ok_zero ].
Qed.

Lemma run_file_ok (m : VerificationMetrics) (nf : string * File) :
  counters_ok m -> counters_ok (state_of (run_file m nf)).
Proof.
  intros Hm. unfold run_file. destruct (str_contains _ _); [ exact Hm | ].
  pose proof (analyze_session_ok m nf.2 Hm) as (Hself & _).
  now destruct (analyze_session_from m nf.2).
Qed.

Lemma run_ok (limit : option nat) (files : list (string * File)) :
  counters_ok (state_of (run limit files)).
Proof.
  unfold run.
  apply (for_each_invariant counters_ok); [ intros m nf; apply run_file_ok | ].
  apply counters_ok_zero.
Qed.

End WithLib.

(** *** The rates, over the rationals *)

Local Open Scope Q_scope.

Lemma rate_nonneg (a b : Z) : (0 <= a)%Z -> 0 <= rate (F := Q) a b.
Proof.
  intros Ha. unfold rate. destruct (0 <? b)%Z eqn:Hb; simpl; [ | apply Qle_refl ].
  apply Z.ltb_lt in Hb. apply Qle_shift_div_l.
  - change 0 with (inject_Z 0). now rewrite <- Zlt_Qlt.
  - rewrite Qmult_0_l. change 0 with (inject_Z 0). now rewrite <- Zle_Qle.
Qed.

Lemma rate_le_1_iff (a b : Z) :
  rate (F := Q) a b <= 1 <-> (b <= 0)%Z \/ (a <= b)%Z.
Proof.
  unfold rate. destruct (0 <? b)%Z eqn:Hb; simpl.
  - apply Z.ltb_lt in Hb.
    assert (Hq : 0 < inject_Z b) by (change 0 with (inject_Z 0); now rewrite <- Zlt_Qlt).
    split.
    + intros Hle. right.
      apply (Qmult_le_compat_r _ _ (inject_Z b)) in Hle; [ | now apply Qlt_le_weak ].
      rewrite Qmult_1_l in Hle. unfold Qdiv in Hle.
      rewrite <- Qmult_assoc, (Qmult_comm (/ inject_Z b)), Qmult_inv_r, Qmult_1_r in Hle.
      * now rewrite Zle_Qle.
      * intros Heq. rewrite Heq in Hq. now apply Qlt_irrefl in Hq.
    + intros [ Hle | Hle ]; [ lia | ].
      apply Qle_shift_div_r; [ exact Hq | ].
      rewrite Qmult_1_l. now rewrite <- Zle_Qle.
  - apply Z.ltb_ge in Hb. split; [ intros _; now left | intros _; discriminate ].
Qed.

Lemma rate_mono (a a' b : Z) : (a <= a')%Z -> rate (F := Q) a b <= rate a' b.
Proof.
  intros Ha. unfold rate. destruct (0 <? b)%Z eqn:Hb; simpl; [ | apply Qle_refl ].
  apply Z.ltb_lt in Hb. unfold Qdiv. apply Qmult_le_compat_r.
  - now rewrite <- Zle_Qle.
  - apply Qinv_le_0_compat. change 0 with (inject_Z 0). rewrite <- Zle_Qle. lia.
Qed.

Section WithLib.
Context `{PyLib}.

(** C1 (amended).  On the counters of any corpus scan, however it ends (a
    single session is the corpus of one file), with the rates read over
    the rationals: the correction rate and the rejection rate lie in
    [0,1]; the error rate and the bash-failure rate are non-negative and
    the second is at most the first; and either of the two is at most 1
    exactly when there was no tool use or its numerator does not exceed the
    number of tool uses. *)
Theorem rates_in_unit_interval (limit : option nat) (files : list (string * File)) :
  (0 <= correction_rate (F := Q) (state_of (run limit files))
   /\ correction_rate (F := Q) (state_of (run limit files)) <= 1)
  /\ (0 <= user_rejection_rate (F := Q) (state_of (run limit files))
      /\ user_rejection_rate (F := Q) (state_of (run limit files)) <= 1)
  /\ (0 <= bash_failure_rate (F := Q) (state_of (run limit files))
      /\ bash_failure_rate (F := Q) (state_of (run limit files))
         <= error_rate (F := Q) (state_of (run limit files)))
  /\ 0 <= error_rate (F := Q) (state_of (run limit files))
  /\ (error_rate (F := Q) (state_of (run limit files)) <= 1
      <-> (total_tool_uses (state_of (run limit files)) = 0
           \/ tool_errors (state_of (run limit files)) <= total_tool_uses (state_of (run limit files)))%Z)
  /\ (bash_failure_rate (F := Q) (state_of (run limit files)) <= 1
      <-> (total_tool_uses (state_of (run limit files)) = 0
           \/ bash_failures (state_of (run limit files)) <= total_tool_uses (state_of (run limit files)))%Z).
Proof.
  pose proof (run_ok limit files) as Hok.
  unfold counters_ok in Hok.
  unfold correction_rate, user_rejection_rate, bash_failure_rate, error_rate.
  repeat match goal with
         | |- _ /\ _ => split
         end;
    try (apply rate_nonneg; lia);
    try (apply rate_le_1_iff; lia);
    try (apply rate_mono; lia);
    rewrite rate_le_1_iff; lia.
Qed.

End WithLib.

(** C1 as stated fails: a session with one Bash invocation followed by
    two error results has an error rate and a bash-failure rate of 2. *)
Lemma error_rate_counterexample :
  @run Toy.lib None [("session.jsonl", file_of_lines ["BXX"])]
    = Returns {| total_tool_uses := 1; tool_errors := 2; bash_failures := 2;
                 bash_retries := 0; consecutive_edits_same_file := 0;
                 user_rejection_messages := 0; total_user_messages := 0 |}
  /\ error_rate (F := Q)
       (state_of (@run Toy.lib None [("session.jsonl", file_of_lines ["BXX"])])) == 2
  /\ bash_failure_rate (F := Q)
       (state_of (@run Toy.lib None [("session.jsonl", file_of_lines ["BXX"])])) == 2
  /\ ~ error_rate (F := Q)
         (state_of (@run Toy.lib None [("session.jsonl", file_of_lines ["BXX"])])) <= 1.
Proof.
  repeat split; try (vm_compute; reflexivity).
  vm_compute. intros Hle. apply Hle. reflexivity.
Qed.

(** C2.  Over the rationals the verification score is
    0.3 * error rate + 0.4 * correction rate + 0.3 * rejection rate and the
    endorsement proxy is 1 minus it; with the rates 0.10, 0.05 and 0.20
    they are 0.11 and 0.89.  In binary64, on counters with these rates,
    the two scores are the floating-point numbers nearest to 0.11 and
    0.89. *)
Theorem composite_scores (m : VerificationMetrics) :
  verification_score (F := Q) m
    == (3 # 10) * error_rate m + (4 # 10) * correction_rate m
       + (3 # 10) * user_rejection_rate m
  /\ endorsement_proxy (F := Q) m == 1 - verification_score m
  /\ (error_rate (F := Q) m == 1 # 10 -> correction_rate (F := Q) m == 5 # 100 ->
      user_rejection_rate (F := Q) m == 2 # 10 ->
      verification_score (F := Q) m == 11 # 100
      /\ endorsement_proxy (F := Q) m == 89 # 100)
  /\ error_rate (F := Q) example_metrics == 1 # 10
  /\ correction_rate (F := Q) example_metrics == 5 # 100
  /\ user_rejection_rate (F := Q) example_metrics == 2 # 10
  /\ verification_score (F := Q) example_metrics == 11 # 100
  /\ endorsement_proxy (F := Q) example_metrics == 89 # 100
  /\ verification_score (F := float) example_metrics = lit 11 100
  /\ endorsement_proxy (F := float) example_metrics = lit 89 100.
Proof.
  assert (Hv : verification_score (F := Q) m
               == (3 # 10) * error_rate m + (4 # 10) * correction_rate m
                  + (3 # 10) * user_rejection_rate m).
  { unfold verification_score, lit. simpl.
    assert (H3 : inject_Z 3 / inject_Z 10 == 3 # 10) by reflexivity.
    assert (H4 : inject_Z 4 / inject_Z 10 == 4 # 10) by reflexivity.
    rewrite H3, H4. ring. }
  assert (He : endorsement_proxy (F := Q) m == 1 - verification_score m).
  { unfold endorsement_proxy. simpl. reflexivity. }
  split; [ exact Hv | ]. split; [ exact He | ].
  split.
  { intros H1 H2 H3. rewrite He, Hv, H1, H2, H3. split; reflexivity. }
  repeat split; vm_compute; reflexivity.
Qed.

End RateFacts.

Module DelegationFacts.
Import Delegation.
Local Open Scope Q_scope.

Lemma weight_of_cases (category : string) :
  weight_of (F := Q) category == 1 \/ weight_of (F := Q) category == 1 # 2
  \/ weight_of (F := Q) category == 0.
Proof.
  unfold weight_of, DELEGATION_WEIGHTS.
  rewrite !lookup_insert.
  repeat case_decide; simpl;
    solve [ left; reflexivity | right; left; reflexivity | right; right; reflexivity ].
Qed.

Lemma weight_of_range (category : string) :
  0 <= weight_of (F := Q) category /\ weight_of (F := Q) category <= 1.
Proof.
  destruct (weight_of_cases category) as [ -> | [ -> | -> ] ]; split; discriminate.
Qed.

Lemma total_count_foldr (l : list (string * Z)) (acc : Z) :
  foldl Z.add acc (map snd l) = (acc + foldr (fun cc s => cc.2 + s) 0 l)%Z.
Proof.
  revert acc. induction l as [ | cc l IH ]; intros acc; simpl; [ lia | ].
  rewrite IH. lia.
Qed.

Lemma weighted_sum_closed_form (total : Z) (l : list (string * Z)) (acc : Q) :
  foldl (add_category total) acc l == acc + Qsum (map (score_term total) l).
Proof.
  revert acc. induction l as [ | cc l IH ]; intros acc; simpl.
  - unfold Qsum. simpl. ring.
  - rewrite IH. unfold add_category, score_term, Qsum. simpl. ring.
Qed.

Lemma score_term_range (total : Z) (cc : string * Z) :
  (0 < total)%Z -> (0 <= cc.2)%Z ->
  0 <= score_term total cc
  /\ score_term total cc <= inject_Z 100 * inject_Z cc.2 / inject_Z total.
Proof.
  intros Ht Hc. unfold score_term.
  destruct (weight_of_range cc.1) as (Hw0 & Hw1).
  set (w := weight_of cc.1) in *. clearbody w.
  assert (Hx : 0 <= inject_Z cc.2 / inject_Z total).
  { apply Qle_shift_div_l.
    - change 0 with (inject_Z 0). now rewrite <- Zlt_Qlt.
    - rewrite Qmult_0_l. change 0 with (inject_Z 0). now rewrite <- Zle_Qle. }
  assert (Hswap : inject_Z 100 * inject_Z cc.2 / inject_Z total
                  == inject_Z cc.2 / inject_Z total * inject_Z 100)
    by (unfold Qdiv; ring).
  rewrite Hswap. clear Hswap.
  set (x := inject_Z cc.2 / inject_Z total) in *. clearbody x.
  change (inject_Z 100) with 100. split; nra.
Qed.

Lemma Qsum_terms_range (total : Z) (l : list (string * Z)) :
  (0 < total)%Z -> Forall (fun cc => (0 <= cc.2)%Z) l ->
  0 <= Qsum (map (score_term total) l)
  /\ Qsum (map (score_term total) l)
     <= inject_Z 100 * inject_Z (foldr (fun cc s => (cc.2 + s)%Z) 0%Z l) / inject_Z total.
Proof.
  intros Ht Hall. induction Hall as [ | cc l Hc Hall IH ]; simpl.
  - unfold Qsum; simpl. split; [ discriminate | ].
    unfold Qdiv. rewrite Qmult_0_r, Qmult_0_l. discriminate.
  - destruct (score_term_range total cc Ht Hc) as (H0 & H1).
    destruct IH as (IH0 & IH1).
    change (Qsum (score_term total cc :: map (score_term total) l))
      with (score_term total cc + Qsum (map (score_term total) l)).
    rewrite inject_Z_plus.
    assert (Hsplit :
      inject_Z 100 * (inject_Z cc.2 + inject_Z (foldr (fun cc s => (cc.2 + s)%Z) 0%Z l))
        / inject_Z total
      == inject_Z 100 * inject_Z cc.2 / inject_Z total
         + inject_Z 100 * inject_Z (foldr (fun cc s => (cc.2 + s)%Z) 0%Z l) / inject_Z total)
      by (unfold Qdiv; ring).
    rewrite Hsplit. split; lra.
Qed.

(** In exact arithmetic the score of non-negative counts lies in [0,1]:
    it is 0 when the counts sum to 0 and otherwise the sum of
    (count / total) * 100 * weight, divided by 100, with every weight in
    [0,1] and 0.5 for a category outside the table.  What the script
    computes differs from this by rounding alone. *)
Lemma delegation_score_exact_in_unit_interval (category_counts : list (string * Z)) :
  Forall (fun cc => (0 <= cc.2)%Z) category_counts ->
  (0 <= compute_delegation_score (F := Q) category_counts
   /\ compute_delegation_score (F := Q) category_counts <= 1)
  /\ (total_count category_counts = 0%Z ->
      compute_delegation_score (F := Q) category_counts == 0)
  /\ (total_count category_counts <> 0%Z ->
      compute_delegation_score (F := Q) category_counts
      == Qsum (map (score_term (total_count category_counts)) category_counts) / 100)
  /\ (forall category,
        0 <= weight_of (F := Q) category /\ weight_of (F := Q) category <= 1)
  /\ (forall category,
        DELEGATION_WEIGHTS (F := Q) !! category = None ->
        weight_of (F := Q) category == 1 # 2).
Proof.
  intros Hall.
  assert (Hform : total_count category_counts <> 0%Z ->
            compute_delegation_score (F := Q) category_counts
            == Qsum (map (score_term (total_count category_counts)) category_counts) / 100).
  { intros Hne. unfold compute_delegation_score.
    apply Z.eqb_neq in Hne. rewrite Hne. simpl.
    rewrite weighted_sum_closed_form. change (inject_Z 0) with 0.
    change (inject_Z 100) with 100. unfold Qdiv. ring. }
  assert (Hzero : total_count category_counts = 0%Z ->
            compute_delegation_score (F := Q) category_counts == 0).
  { intros Hz. unfold compute_delegation_score. rewrite Hz. reflexivity. }
  split; [ | split; [ exact Hzero | split; [ exact Hform | split ] ] ].
  - destruct (Z.eq_dec (total_count category_counts) 0%Z) as [ Hz | Hne ].
    { rewrite (Hzero Hz). split; discriminate. }
    rewrite (Hform Hne).
    assert (Hsum : total_count category_counts
                   = foldr (fun cc s => (cc.2 + s)%Z) 0%Z category_counts).
    { unfold total_count. now rewrite total_count_foldr. }
    assert (Hpos : (0 < total_count category_counts)%Z).
    { assert (Hge : (0 <= foldr (fun cc s => (cc.2 + s)%Z) 0%Z category_counts)%Z).
      { clear -Hall. induction Hall; simpl; lia. }
      lia. }
    destruct (Qsum_terms_range _ _ Hpos Hall) as (H0 & H1).
    rewrite <- Hsum in H1.
    assert (Hq : 0 < inject_Z (total_count category_counts))
      by (change 0 with (inject_Z 0); now rewrite <- Zlt_Qlt).
    assert (H100 : inject_Z 100 * inject_Z (total_count category_counts)
                   / inject_Z (total_count category_counts) == 100).
    { field. intros Heq. rewrite Heq in Hq. now apply Qlt_irrefl in Hq. }
    rewrite H100 in H1.
    split.
    + apply Qle_shift_div_l; [ reflexivity | ]. now rewrite Qmult_0_l.
    + apply Qle_shift_div_r; [ reflexivity | ]. now rewrite Qmult_1_l.
  - apply weight_of_range.
  - intros category Hnone. unfold weight_of. rewrite Hnone. reflexivity.
Qed.

(** C10.  The claim fails on the code in binary64 arithmetic: for 2
    exploration and 9 planning events, (2/11)*100 + (9/11)*100 is
    100.00000000000001 and the score returned is 1.0000000000000002, above
    1.  With no event at all the score is 0, and on 11 exploration events
    it is exactly 1. *)
Theorem delegation_score_exceeds_one :
  compute_delegation_score (F := float) [("exploration", 2%Z); ("planning", 9%Z)]
    = 0x1.0000000000001p+0%float
  /\ PrimFloat.ltb 1%float
       (compute_delegation_score (F := float) [("exploration", 2%Z); ("planning", 9%Z)])
     = true
  /\ PrimFloat.leb
       (compute_delegation_score (F := float) [("exploration", 2%Z); ("planning", 9%Z)])
       1%float
     = false
  /\ add_category (F := float) 11 (of_int 0) ("exploration", 2%Z)
     = 0x1.22e8ba2e8ba2fp+4%float
  /\ foldl (add_category (F := float) 11) (of_int 0)
           [("exploration", 2%Z); ("planning", 9%Z)]
     = 0x1.9000000000001p+6%float
  /\ compute_delegation_score (F := float) [] = 0%float
  /\ compute_delegation_score (F := float) [("exploration", 11%Z)] = 1%float.
Proof. repeat split; vm_compute; reflexivity. Qed.

End DelegationFacts.

Module CountingFacts.
Import Category Verification Report Counting CounterFacts RateFacts.

Lemma metrics_eq (a b : VerificationMetrics) :
  total_tool_uses a = total_tool_uses b -> tool_errors a = tool_errors b ->
  bash_failures a = bash_failures b -> bash_retries a = bash_retries b ->
  consecutive_edits_same_file a = consecutive_edits_same_file b ->
  user_rejection_messages a = user_rejection_messages b ->
  total_user_messages a = total_user_messages b -> a = b.
Proof. destruct a, b; simpl; intros; congruence. Qed.

Lemma metrics_add_zero_r (m : VerificationMetrics) : metrics_add m zero_metrics = m.
Proof. apply metrics_eq; simpl; lia. Qed.

Lemma shifts_incr :
  shifts incr_total_tool_uses /\ shifts incr_tool_errors /\ shifts incr_bash_failures
  /\ shifts incr_bash_retries /\ shifts incr_consecutive_edits
  /\ shifts incr_user_rejections /\ shifts incr_user_messages.
Proof. repeat split; intros m s; apply metrics_eq; simpl; lia. Qed.

Lemma bump_on_top_of (f : VerificationMetrics -> VerificationMetrics)
    (m : VerificationMetrics) (st : State) :
  shifts f -> bump f (on_top_of m st) = on_top_of m (bump f st).
Proof. intros Hf. unfold bump, on_top_of. simpl. now rewrite Hf. Qed.

Lemma on_tool_use_on_top_of (m : VerificationMetrics) (name : string)
    (input : option (gmap string string)) (st : State) :
  on_tool_use name input (on_top_of m st) = on_top_of m (on_tool_use name input st).
Proof.
  destruct shifts_incr as (H1 & _ & _ & H4 & H5 & _).
  unfold on_tool_use. cbv zeta. rewrite !scan_recent_existsb.
  rewrite (bump_on_top_of _ _ _ H1).
  set (st1 := bump incr_total_tool_uses st).
  change (recent_bash_failed (on_top_of m st1)) with (recent_bash_failed st1).
  destruct (String.eqb name "Bash" && recent_bash_failed st1).
  - rewrite (bump_on_top_of _ _ _ H4).
    set (st2 := set_recent_bash_failed false (bump incr_bash_retries st1)).
    change (set_recent_bash_failed false (on_top_of m (bump incr_bash_retries st1)))
      with (on_top_of m st2).
    change (recent_tools (on_top_of m st2)) with (recent_tools st2).
    destruct (is_edit_tool name && _); [ destruct (existsb _ _) | ];
      rewrite ?(bump_on_top_of _ _ _ H5); reflexivity.
  - change (recent_tools (on_top_of m st1)) with (recent_tools st1).
    destruct (is_edit_tool name && _); [ destruct (existsb _ _) | ];
      rewrite ?(bump_on_top_of _ _ _ H5); reflexivity.
Qed.

Lemma on_tool_result_on_top_of (m : VerificationMetrics) (is_error : bool) (st : State) :
  on_tool_result is_error (on_top_of m st) = on_top_of m (on_tool_result is_error st).
Proof.
  destruct shifts_incr as (_ & H2 & H3 & _).
  unfold on_tool_result. destruct is_error; [ | reflexivity ].
  rewrite (bump_on_top_of _ _ _ H2).
  change (recent_tools (on_top_of m (bump incr_tool_errors st)))
    with (recent_tools (bump incr_tool_errors st)).
  destruct (last_is_bash _); [ | reflexivity ].
  rewrite (bump_on_top_of _ _ _ H3). reflexivity.
Qed.

Lemma analyze_item_on_top_of (m : VerificationMetrics) (item : Item) (st : State) :
  analyze_item (on_top_of m st) item = on_top_of m (analyze_item st item).
Proof.
  destruct item; simpl;
    [ apply on_tool_use_on_top_of | apply on_tool_result_on_top_of
    | reflexivity | reflexivity ].
Qed.

(** Two loops whose bodies agree through [f] end the same way, in
    states that agree through [f]. *)
Lemma for_each_map {A A' B} (f : A -> A') (body : A -> B -> Outcome A)
    (body' : A' -> B -> Outcome A') :
  (forall st x, body' (f st) x = outcome_map f (body st x)) ->
  forall l st, for_each body' (f st) l = outcome_map f (for_each body st l).
Proof.
  intros Hbody l. induction l as [ | x l IH ]; intros st; [ reflexivity | ].
  simpl. rewrite Hbody. destruct (body st x) as [ st' | st' ]; simpl;
    [ apply IH | reflexivity ].
Qed.

Lemma analyze_element_on_top_of (m : VerificationMetrics) (st : State) (el : Element) :
  analyze_element (on_top_of m st) el
  = outcome_map (on_top_of m) (analyze_element st el).
Proof.
  destruct el as [ item | s | ]; simpl; [ | reflexivity | reflexivity ].
  now rewrite analyze_item_on_top_of.
Qed.

Section WithLib.
Context `{PyLib}.

Lemma analyze_entry_on_top_of (m : VerificationMetrics) (st : State) (v : Value) :
  analyze_entry (on_top_of m st) v = outcome_map (on_top_of m) (analyze_entry st v).
Proof.
  destruct shifts_incr as (_ & _ & _ & _ & _ & H6 & H7).
  destruct v as [ entry | ]; [ | reflexivity ].
  unfold analyze_entry.
  case_bool_decide; [ reflexivity | ].
  destruct (message entry) as [ message | ]; [ | reflexivity ].
  case_bool_decide.
  { rewrite (bump_on_top_of _ _ _ H7).
    destruct (_contains_rejection _); [ | reflexivity ].
    now rewrite (bump_on_top_of _ _ _ H6). }
  case_bool_decide; [ | reflexivity ].
  destruct (content message); [ | reflexivity | reflexivity ].
  apply (for_each_map (on_top_of m)). apply analyze_element_on_top_of.
Qed.

Lemma session_start_on_top_of (m : VerificationMetrics) :
  session_start m = on_top_of m (session_start zero_metrics).
Proof.
  unfold session_start, on_top_of. simpl. now rewrite metrics_add_zero_r.
Qed.

Lemma analyze_session_from_on_top_of (m : VerificationMetrics) (f : File) :
  analyze_session_from m f
  = outcome_map (on_top_of m) (analyze_session_from zero_metrics f).
Proof.
  unfold analyze_session_from. rewrite session_start_on_top_of.
  apply (for_each_map (on_top_of m)). apply analyze_entry_on_top_of.
Qed.

(** X1.  What a call of [analyze_session] does is independent of what the
    analyzer has counted before: it returns the same counters, or raises,
    whatever the analyzer's counters are, and in either case the
    analyzer's counters afterwards are the ones before plus the session's
    own. *)
Theorem session_counters_additive (m : VerificationMetrics) (f : File) :
  analyze_session m f = analyze_session zero_metrics f
  /\ self_metrics (state_of (analyze_session_from m f))
     = metrics_add m (session_metrics (state_of (analyze_session_from zero_metrics f)))
  /\ session_metrics (state_of (analyze_session_from m f))
     = session_metrics (state_of (analyze_session_from zero_metrics f)).
Proof.
  unfold analyze_session. rewrite analyze_session_from_on_top_of.
  destruct (analyze_session_from zero_metrics f); repeat split.
Qed.

End WithLib.
End CountingFacts.

Module RetryFacts.
Import Category Verification Report Counting CounterFacts RateFacts CountingFacts.

(** What a tool invocation does to the retry counters and to the
    flag. *)
Lemma on_tool_use_retries (name : string) (input : option (gmap string string))
    (st : State) :
  let hit := String.eqb name "Bash" && recent_bash_failed st in
  bash_retries (self_metrics (on_tool_use name input st))
    = bash_retries (self_metrics st) + (if hit then 1 else 0)
  /\ bash_retries (session_metrics (on_tool_use name input st))
    = bash_retries (session_metrics st) + (if hit then 1 else 0)
  /\ bash_failures (self_metrics (on_tool_use name input st))
    = bash_failures (self_metrics st)
  /\ bash_failures (session_metrics (on_tool_use name input st))
    = bash_failures (session_metrics st)
  /\ recent_bash_failed (on_tool_use name input st)
    = (if hit then false else recent_bash_failed st).
Proof.
  unfold on_tool_use. cbv zeta. rewrite scan_recent_existsb.
  change (recent_bash_failed (bump incr_total_tool_uses st)) with (recent_bash_failed st).
  destruct (String.eqb name "Bash" && recent_bash_failed st);
    destruct (is_edit_tool name && _); try destruct (existsb _ _);
    cbn; repeat split; lia.
Qed.

Lemma on_tool_result_retries (is_error : bool) (st : State) :
  let hit := is_error && last_is_bash (recent_tools st) in
  bash_retries (self_metrics (on_tool_result is_error st))
    = bash_retries (self_metrics st)
  /\ bash_retries (session_metrics (on_tool_result is_error st))
    = bash_retries (session_metrics st)
  /\ bash_failures (self_metrics (on_tool_result is_error st))
    = bash_failures (self_metrics st) + (if hit then 1 else 0)
  /\ bash_failures (session_metrics (on_tool_result is_error st))
    = bash_failures (session_metrics st) + (if hit then 1 else 0)
  /\ recent_bash_failed (on_tool_result is_error st)
    = (if hit then true else recent_bash_failed st).
Proof.
  unfold on_tool_result. destruct is_error; [ | cbn; repeat split; lia ].
  change (recent_tools (bump incr_tool_errors st)) with (recent_tools st).
  destruct (last_is_bash (recent_tools st)); cbn; repeat split; lia.
Qed.

Lemma analyze_item_retries_ok (item : Item) (st : State) :
  retries_ok st -> retries_ok (analyze_item st item).
Proof.
  unfold retries_ok, pending. intros (Hself & Hsession).
  destruct item as [ name input | is_error | t | ]; cbn [analyze_item];
    [ | | tauto | tauto ].
  - destruct (on_tool_use_retries name input st) as (-> & -> & -> & -> & ->).
    destruct (String.eqb name "Bash" && recent_bash_failed st) eqn:Hhit.
    + apply andb_prop in Hhit. destruct Hhit as (_ & Hflag).
      rewrite Hflag in Hself, Hsession. lia.
    + lia.
  - destruct (on_tool_result_retries is_error st) as (-> & -> & -> & -> & ->).
    destruct (is_error && last_is_bash (recent_tools st));
      destruct (recent_bash_failed st); lia.
Qed.

Lemma analyze_items_retries_ok (items : list Item) (st : State) :
  retries_ok st -> retries_ok (foldl analyze_item st items).
Proof.
  revert st. induction items as [ | item items IH ]; intros st Hst; [ exact Hst | ].
  simpl. apply IH. now apply analyze_item_retries_ok.
Qed.

Section WithLib.
Context `{PyLib}.

Lemma analyze_entry_retries_ok (st : State) (v : Value) :
  retries_ok st -> retries_ok (state_of (analyze_entry st v)).
Proof.
  intros Hst. destruct v as [ entry | ]; [ | exact Hst ].
  unfold analyze_entry.
  case_bool_decide; [ exact Hst | ].
  destruct (message entry) as [ message | ]; [ | exact Hst ].
  case_bool_decide.
  { destruct (_contains_rejection _); exact Hst. }
  case_bool_decide; [ | exact Hst ].
  destruct (content message) as [ els | s | ]; [ | exact Hst | exact Hst ].
  rewrite for_each_analyze_element.
  assert (Hfold : retries_ok (foldl analyze_item st (handled els)))
    by now apply analyze_items_retries_ok.
  now destruct (forallb is_dict els).
Qed.

Lemma session_retries_ok (m : VerificationMetrics) (f : File) :
  bash_retries m <= bash_failures m ->
  retries_ok (state_of (analyze_session_from m f)).
Proof.
  intros Hm. unfold analyze_session_from.
  apply (for_each_invariant retries_ok); [ apply analyze_entry_retries_ok | ].
  unfold retries_ok, pending. simpl. lia.
Qed.

Lemma retries_ok_weaken (st : State) :
  retries_ok st ->
  bash_retries (self_metrics st) <= bash_failures (self_metrics st)
  /\ bash_retries (session_metrics st) <= bash_failures (session_metrics st).
Proof. unfold retries_ok, pending. destruct (recent_bash_failed st); lia. Qed.

(** X2.  On the counters of any corpus scan, however it ends, and on the
    counters of any session, Bash retries never outnumber Bash
    failures. *)
Theorem retries_never_exceed_failures (limit : option nat)
    (files : list (string * File)) (m : VerificationMetrics) (f : File) :
  bash_retries (state_of (run limit files)) <= bash_failures (state_of (run limit files))
  /\ bash_retries (session_metrics (state_of (analyze_session_from m f)))
     <= bash_failures (session_metrics (state_of (analyze_session_from m f))).
Proof.
  split.
  - unfold run.
    apply (for_each_invariant (fun m => bash_retries m <= bash_failures m));
      [ | simpl; lia ].
    intros m0 nf Hm0. unfold run_file. destruct (str_contains _ _); [ exact Hm0 | ].
    pose proof (retries_ok_weaken _ (session_retries_ok m0 nf.2 Hm0)) as (Hself & _).
    now destruct (analyze_session_from m0 nf.2).
  - destruct (session_counters_additive m f) as (_ & _ & ->).
    assert (H0 : bash_retries zero_metrics <= bash_failures zero_metrics) by (simpl; lia).
    apply (retries_ok_weaken _ (session_retries_ok zero_metrics f H0)).
Qed.

End WithLib.

(** *** A retry is the next Bash command, however far *)

Lemma not_bash_keeps_pending (items : list Item) (st : State) :
  recent_bash_failed st = true ->
  Forall (fun item => is_bash_use item = false) items ->
  recent_bash_failed (foldl analyze_item st items) = true
  /\ bash_retries (self_metrics (foldl analyze_item st items))
     = bash_retries (self_metrics st)
  /\ bash_retries (session_metrics (foldl analyze_item st items))
     = bash_retries (session_metrics st).
Proof.
  intros Hst Hall. revert st Hst.
  induction Hall as [ | item items Hitem _ IH ]; intros st Hst; [ now repeat split | ].
  simpl.
  assert (Hstep : recent_bash_failed (analyze_item st item) = true
                  /\ bash_retries (self_metrics (analyze_item st item))
                     = bash_retries (self_metrics st)
                  /\ bash_retries (session_metrics (analyze_item st item))
                     = bash_retries (session_metrics st)).
  { destruct item as [ name input | is_error | t | ]; cbn [analyze_item];
      [ | | now repeat split | now repeat split ].
    - simpl in Hitem.
      destruct (on_tool_use_retries name input st) as (-> & -> & _ & _ & ->).
      rewrite Hitem. simpl. repeat split; [ exact Hst | lia | lia ].
    - destruct (on_tool_result_retries is_error st) as (-> & -> & _ & _ & ->).
      rewrite Hst. destruct (is_error && _); now repeat split. }
  destruct Hstep as (Hp & Hr1 & Hr2).
  destruct (IH _ Hp) as (IHp & IHr1 & IHr2).
  repeat split; congruence.
Qed.

(** X3.  After a failed Bash command the next Bash invocation is counted
    as a retry, once, however many invocations of other tools and however
    many results come in between, and it clears the flag: the retry
    counter has no window. *)
Theorem retry_is_next_bash (st : State) (items : list Item)
    (input : option (gmap string string)) :
  recent_bash_failed st = true ->
  Forall (fun item => is_bash_use item = false) items ->
  bash_retries (session_metrics (on_tool_use "Bash" input (foldl analyze_item st items)))
    = bash_retries (session_metrics st) + 1
  /\ bash_retries (self_metrics (on_tool_use "Bash" input (foldl analyze_item st items)))
    = bash_retries (self_metrics st) + 1
  /\ recent_bash_failed (on_tool_use "Bash" input (foldl analyze_item st items)) = false.
Proof.
  intros Hst Hall.
  destruct (not_bash_keeps_pending items st Hst Hall) as (Hp & Hr1 & Hr2).
  destruct (on_tool_use_retries "Bash" input (foldl analyze_item st items))
    as (-> & -> & _ & _ & ->).
  rewrite Hp, Hr1, Hr2. simpl. repeat split.
Qed.

Lemma retry_is_next_bash_witness :
  recent_bash_failed
    (state_of (@analyze_session_from Toy.lib zero_metrics (file_of_lines ["B"; "X"])))
  = true
  /\ bash_retries
       (session_metrics
          (on_tool_use "Bash" None
             (foldl analyze_item
                (state_of (@analyze_session_from Toy.lib zero_metrics
                             (file_of_lines ["B"; "X"])))
                [ tool_use "Read" None; tool_use "Grep" None; tool_use "Read" None;
                  tool_use "Edit" None; tool_use "Read" None; tool_use "Glob" None;
                  tool_result false ])))
     = bash_retries
         (session_metrics
            (state_of (@analyze_session_from Toy.lib zero_metrics
                         (file_of_lines ["B"; "X"])))) + 1.
Proof.
  assert (Hflag : recent_bash_failed
                    (state_of (@analyze_session_from Toy.lib zero_metrics
                                 (file_of_lines ["B"; "X"]))) = true)
    by (vm_compute; reflexivity).
  assert (Hall : Forall (fun item => is_bash_use item = false)
                   [ tool_use "Read" None; tool_use "Grep" None; tool_use "Read" None;
                     tool_use "Edit" None; tool_use "Read" None; tool_use "Glob" None;
                     tool_result false ])
    by (repeat constructor).
  split; [ exact Hflag | ].
  exact (proj1 (retry_is_next_bash _ _ None Hflag Hall)).
Defined.

End RetryFacts.

Module ScanFacts.
Import Category Extractor Verification Report Counting ReaderFacts CounterFacts
  RateFacts CountingFacts.

Lemma prefix_append (needle post : string) : String.prefix needle (needle +:+ post) = true.
Proof.
  induction needle as [ | c needle IH ]; simpl; [ now destruct post | ].
  destruct (Ascii.ascii_dec c c) as [ _ | Hne ]; [ exact IH | now destruct Hne ].
Qed.

Lemma str_contains_prefix (needle s : string) :
  String.prefix needle s = true -> str_contains needle s = true.
Proof. destruct s; simpl; intros ->; reflexivity. Qed.

Lemma str_contains_append (needle pre post : string) :
  str_contains needle (pre +:+ (needle +:+ post)) = true.
Proof.
  induction pre as [ | c pre IH ].
  - change ("" +:+ (needle +:+ post)) with (needle +:+ post).
    apply str_contains_prefix, prefix_append.
  - simpl. rewrite IH. apply orb_true_r.
Qed.


Section WithLib.
Context `{PyLib}.



Lemma read_lines_all_skipped (lines : list string) :
  Forall skipped lines -> read_lines (map read_line lines) = [].
Proof.
  induction 1 as [ | line lines Hskip _ IH ]; [ reflexivity | ].
  simpl. destruct Hskip as [ Hblank | Hbad ].
  - now rewrite Hblank.
  - rewrite Hbad. now destruct (str_truthy _).
Qed.

(** X5.  Three kinds of file leave the analyzer's counters as they are: a
    file whose name contains [agent-], a file that cannot be opened, and a
    file all of whose lines are blank or rejected by [json.loads] with
    [JSONDecodeError]; the last one is a session with all counters at 0
    and no tool event. *)
Theorem files_that_count_nothing (m : VerificationMetrics) (name : string) :
  (forall pre post f, run_file m (pre +:+ ("agent-" +:+ post), f) = Returns m)
  /\ run_file m (name, None) = Returns m
  /\ (forall lines, Forall skipped lines ->
        run_file m (name, file_of_lines lines) = Returns m
        /\ analyze_session m (file_of_lines lines) = Some zero_metrics
        /\ extract_tool_events (file_of_lines lines) = Some []).
Proof.
  split; [ | split ].
  - intros pre post f. unfold run_file. simpl.
    now rewrite (str_contains_append "agent-" pre post).
  - unfold run_file. simpl. now destruct (str_contains _ _).
  - intros lines Hall.
    unfold run_file, analyze_session, analyze_session_from, extract_tool_events,
      extract_tool_events_loop, file_of_lines, parse_jsonl.
    cbn [fst snd]. rewrite !(read_lines_all_skipped lines Hall). simpl.
    destruct (str_contains _ _); repeat split; try reflexivity.
Qed.

End WithLib.
End ScanFacts.

Module MatchFacts.
Import Category Extractor Detectors DetectorFacts.
Local Open Scope nat_scope.

Lemma eem_from_shape (events : list ToolEvent) (i : nat) (m : nat * nat) :
  In m (eem_from events i) ->
  i <= m.1 /\ m.1 + 3 <= m.2 /\ m.2 <= m.1 + 9 /\ m.2 <= length events
  /\ category_at events "execution" m.1 = true
  /\ category_at events "modification" (m.2 - 1) = true
  /\ exists j, m.1 < j < m.2 - 1 /\ j <= m.1 + 4
               /\ category_at events "exploration" j = true.
Proof.
  remember (length events - i) as d eqn:Hd.
  revert i Hd. induction d as [ d IH ] using lt_wf_ind. intros i Hd.
  rewrite eem_from_unfold.
  case_bool_decide as Hguard; [ | intros [] ].
  assert (Hnext : forall i', i < i' -> In m (eem_from events i') ->
            i <= m.1 /\ m.1 + 3 <= m.2 /\ m.2 <= m.1 + 9 /\ m.2 <= length events
            /\ category_at events "execution" m.1 = true
            /\ category_at events "modification" (m.2 - 1) = true
            /\ exists j, m.1 < j < m.2 - 1 /\ j <= m.1 + 4
                         /\ category_at events "exploration" j = true).
  { intros i' Hi' Hin.
    assert (Hlt : length events - i' < d) by lia.
    destruct (IH _ Hlt i' eq_refl Hin) as (Hle & Hrest).
    split; [ lia | exact Hrest ]. }
  destruct (category_at events "execution" i) eqn:Hexec;
    [ | apply (Hnext (i + 1)); lia ].
  destruct (first_in_window _ _ (i + 1)) as [ j | ] eqn:Hj;
    [ | apply (Hnext (i + 1)); lia ].
  apply first_in_window_Some in Hj. destruct Hj as (Hjr & Hjp & _).
  destruct (first_in_window _ _ (j + 1)) as [ k | ] eqn:Hk;
    [ | apply (Hnext (i + 1)); lia ].
  apply first_in_window_Some in Hk. destruct Hk as (Hkr & Hkp & _).
  intros [ <- | Hin ]; [ | apply (Hnext (k + 1)); [ lia | exact Hin ] ].
  simpl. replace (k + 1 - 1) with k by lia.
  repeat split; try lia; try assumption.
  exists j. repeat split; try lia; assumption.
Qed.

(** X6.  Every match of the execute-explore-modify detector starts at an
    execution event and ends on a modification event, with an exploration
    event strictly in between, at most four places after the start; it
    spans between three and nine events and stays inside the
    sequence. *)
Theorem execute_explore_modify_match_shape (events : list ToolEvent) (m : nat * nat) :
  In m (find_execute_explore_modify_cycles events) ->
  m.1 + 3 <= m.2 /\ m.2 <= m.1 + 9 /\ m.2 <= length events
  /\ category_at events "execution" m.1 = true
  /\ category_at events "modification" (m.2 - 1) = true
  /\ exists j, m.1 < j < m.2 - 1 /\ j <= m.1 + 4
               /\ category_at events "exploration" j = true.
Proof.
  rewrite eem_from_0. intros Hin.
  destruct (eem_from_shape events 0 m Hin) as (_ & Hrest). exact Hrest.
Qed.

Lemma execute_explore_modify_match_shape_witness :
  In (3, 6) (find_execute_explore_modify_cycles two_cycles)
  /\ category_at two_cycles "execution" 3 = true
  /\ category_at two_cycles "modification" 5 = true.
Proof.
  assert (Hin : In (3, 6) (find_execute_explore_modify_cycles two_cycles))
    by (right; left; reflexivity).
  split; [ exact Hin | ].
  pose proof (execute_explore_modify_match_shape two_cycles (3, 6) Hin)
    as (_ & _ & _ & Hexec & Hmod & _).
  split; [ exact Hexec | exact Hmod ].
Defined.

Lemma eem_from_count (events : list ToolEvent) (i : nat) :
  3 * length (eem_from events i) <= length events - i.
Proof.
  remember (length events - i) as d eqn:Hd.
  revert i Hd. induction d as [ d IH ] using lt_wf_ind. intros i Hd.
  rewrite eem_from_unfold.
  case_bool_decide as Hguard; [ | simpl; lia ].
  assert (Hnext : forall i', i < i' ->
            3 * length (eem_from events i') <= length events - i').
  { intros i' Hi'. apply (IH (length events - i')); [ lia | reflexivity ]. }
  destruct (category_at events "execution" i);
    [ | specialize (Hnext (i + 1) ltac:(lia)); lia ].
  destruct (first_in_window _ _ (i + 1)) as [ j | ] eqn:Hj;
    [ | specialize (Hnext (i + 1) ltac:(lia)); lia ].
  apply first_in_window_Some in Hj. destruct Hj as (Hjr & _).
  destruct (first_in_window _ _ (j + 1)) as [ k | ] eqn:Hk;
    [ | specialize (Hnext (i + 1) ltac:(lia)); lia ].
  apply first_in_window_Some in Hk. destruct Hk as (Hkr & _).
  specialize (Hnext (k + 1) ltac:(lia)). simpl. lia.
Qed.

(** X7.  The execute-explore-modify detector returns at most one match
    for every three events. *)
Theorem execute_explore_modify_count (events : list ToolEvent) :
  3 * length (find_execute_explore_modify_cycles events) <= length events.
Proof.
  rewrite eem_from_0. pose proof (eem_from_count events 0). lia.
Qed.

Lemma bash_retry_at_Some (events : list ToolEvent) (i : nat) (m : nat * nat) :
  bash_retry_at events i = Some m ->
  m.1 = i /\ m.1 + 2 <= m.2 /\ m.2 <= m.1 + 5 /\ m.2 <= length events.
Proof.
  unfold bash_retry_at.
  destruct (events !! i); [ | discriminate ].
  destruct (_ && _); [ | discriminate ].
  destruct (first_in_window _ _ _) as [ j | ] eqn:Hj; [ | discriminate ].
  apply first_in_window_Some in Hj. destruct Hj as (Hr & _).
  intros [= <-]. simpl. lia.
Qed.

Lemma bash_retry_starts_sorted (events : list ToolEvent) (n lo : nat) :
  StronglySorted lt (map fst (omap (bash_retry_at events) (seq lo n)))
  /\ Forall (fun s => lo <= s) (map fst (omap (bash_retry_at events) (seq lo n))).
Proof.
  revert lo. induction n as [ | n IH ]; intros lo; simpl.
  - split; constructor.
  - destruct (IH (S lo)) as (Hsorted & Hge).
    destruct (bash_retry_at events lo) as [ m | ] eqn:Hm; simpl.
    + apply bash_retry_at_Some in Hm. destruct Hm as (-> & _).
      split.
      * constructor; [ exact Hsorted | ].
        eapply Forall_impl; [ exact Hge | ]. simpl. intros s Hs. lia.
      * constructor; [ lia | ].
        eapply Forall_impl; [ exact Hge | ]. simpl. intros s Hs. lia.
    + split; [ exact Hsorted | ].
      eapply Forall_impl; [ exact Hge | ]. simpl. intros s Hs. lia.
Qed.

(** X8.  The bash-retry detector lists its matches by strictly increasing
    start, so at most one match starts at an index; every match spans
    between two and five events and stays inside the sequence. *)
Theorem bash_retry_matches_listed_by_start (events : list ToolEvent) :
  StronglySorted lt (map fst (find_bash_retry_sequences events))
  /\ forall m, In m (find_bash_retry_sequences events) ->
       m.1 + 2 <= m.2 /\ m.2 <= m.1 + 5 /\ m.2 <= length events.
Proof.
  split.
  - apply bash_retry_starts_sorted.
  - intros m Hin. unfold find_bash_retry_sequences in Hin.
    apply list_elem_of_In, list_elem_of_omap in Hin.
    destruct Hin as (i & _ & Hm).
    apply bash_retry_at_Some in Hm. tauto.
Qed.

End MatchFacts.
